(** * ReClass.NET MCP server: command relay and tool dispatch

    A shallow embedding of [reclass_mcp_server.py]: the [ReClassClient]
    class (connect, disconnect, send_command), the tool catalogue of
    [list_tools] and the dispatcher [call_tool].

    Conventions of the embedding.
    - A Python [str] is a Rocq [string] holding the UTF-8 bytes of the
      text, so [s.encode("utf-8")] is [list_byte_of_string s]; [bytes]
      are [list byte].
    - A Python [dict] is an association list in insertion order with
      distinct keys (the order is what [json.dumps] writes).
    - Code that touches the socket runs in a state monad over the client
      object and the outside world; a raised exception is an outcome of
      the monad and, as in Python, never rolls the state back.
    - The functions of the Python library the file calls without defining
      them ([json.dumps], [json.loads], [bytes.decode], [str.strip],
      [repr]) are the fields of the class [PyRuntime]; the theorems hold
      for every runtime, and [Sample.runtime] runs the examples.
    - [except Exception] catches every exception of the model;
      interrupts ([KeyboardInterrupt], [SystemExit]) are not modelled.
      [call_tool] is a coroutine that never awaits, so one call runs
      from start to end. *)

From Stdlib Require Import String Ascii List ZArith Bool Lia.
From Stdlib Require Import Strings.Byte DecimalString DecimalPos DecimalZ SpecFloat.
Import ListNotations.
Local Open Scope string_scope.
Local Open Scope list_scope.
Set Warnings "-register-all".

(** ** Python values *)

Module Py.

(** The values that cross the interfaces of the server: tool arguments
    ([dict[str, Any]] decoded from JSON) and decoded responses. *)
Inductive value : Type :=
| VNone
| VBool (b : bool)
| VInt (z : Z)
| VFloat (f : spec_float)
| VStr (s : string)
| VList (l : list value)
| VDict (items : list (string * value)).

Definition dict : Type := list (string * value).

(** Exceptions, with the text [str(e)] gives. *)
Inductive exn : Type :=
| OSError (msg : string)
| UnicodeDecodeError (msg : string)
| JSONDecodeError (msg : string)
| AttributeError (msg : string)
| KeyError (key : string)
| ValueError (msg : string).

Inductive outcome (A : Type) : Type :=
| Return (a : A)
| Raise (e : exn).
Arguments Return {A} a.
Arguments Raise {A} e.

Definition squote : string := String "039" "".

(** [str(e)]; a [KeyError] prints the repr of its key, and the keys
    looked up here are plain identifiers. *)
Definition exn_str (e : exn) : string :=
  match e with
  | OSError msg | UnicodeDecodeError msg | JSONDecodeError msg
  | AttributeError msg | ValueError msg => msg
  | KeyError key => squote ++ key ++ squote
  end.

(** [key in d] *)
Fixpoint contains (d : dict) (key : string) : bool :=
  match d with
  | [] => false
  | (k, _) :: rest => if k =? key then true else contains rest key
  end.

Fixpoint lookup (d : dict) (key : string) : option value :=
  match d with
  | [] => None
  | (k, v) :: rest => if k =? key then Some v else lookup rest key
  end.

(** [d[key]] *)
Definition getitem (d : dict) (key : string) : outcome value :=
  match lookup d key with
  | Some v => Return v
  | None => Raise (KeyError key)
  end.

(** [d[key] = v]: replaces in place, or appends a new key. *)
Fixpoint setitem (d : dict) (key : string) (v : value) : dict :=
  match d with
  | [] => [(key, v)]
  | (k, x) :: rest =>
      if k =? key then (k, v) :: rest else (k, x) :: setitem rest key v
  end.

Definition type_name (v : value) : string :=
  match v with
  | VNone => "NoneType"
  | VBool _ => "bool"
  | VInt _ => "int"
  | VFloat _ => "float"
  | VStr _ => "str"
  | VList _ => "list"
  | VDict _ => "dict"
  end.

(** [v.get(key, default)]: only a dict has the method. *)
Definition get (v : value) (key : string) (default : value) : outcome value :=
  match v with
  | VDict d =>
      Return (match lookup d key with Some x => x | None => default end)
  | _ =>
      Raise (AttributeError
               (squote ++ type_name v ++ squote
                ++ " object has no attribute " ++ squote ++ "get" ++ squote))
  end.

(** Truth value testing, as [if v:] does it. *)
Definition truthy (v : value) : bool :=
  match v with
  | VNone => false
  | VBool b => b
  | VInt z => negb (z =? 0)%Z
  | VFloat (S754_zero _) => false
  | VFloat _ => true
  | VStr s => negb (s =? "")
  | VList l => match l with [] => false | _ => true end
  | VDict d => match d with [] => false | _ => true end
  end.

(** The decimal text of an int: digits, a minus sign when negative. *)
Definition str_of_int (z : Z) : string := NilZero.string_of_int (Z.to_int z).

(** CPython converts an int to its decimal text only up to 4300 digits
    ([sys.int_info.default_max_str_digits]): an int of more digits, that
    is of absolute value 10^4300 or more, makes the conversion raise. *)
Definition int_max_str_digits : Z := 4300.

Definition int_str_limit : Z := 10 ^ int_max_str_digits.

Definition int_str_error : string :=
  "Exceeds the limit (4300 digits) for integer string conversion; use sys.set_int_max_str_digits() to increase the limit".

(** [str(n)] for an int. *)
Definition int_str (z : Z) : outcome string :=
  if (int_str_limit <=? Z.abs z)%Z
  then Raise (ValueError int_str_error)
  else Return (str_of_int z).

Definition newline : string := String "010" "".

End Py.
Import Py.

(** ** The Python library, as the server uses it *)

Class PyRuntime : Type := {
  (** [json.dumps(v)] with the default separators *)
  json_dumps : value -> string;
  (** [json.dumps(v, indent=n)] *)
  json_dumps_indent : Z -> value -> string;
  (** [json.loads(s)] *)
  json_loads : string -> outcome value;
  (** [b.decode("utf-8")] *)
  bytes_decode : list byte -> outcome string;
  (** [s.strip()] *)
  str_strip : string -> string;
  (** [repr(v)], asked only for floats, lists and dicts; it raises when
      the value holds an int beyond the conversion limit *)
  py_repr : value -> outcome string
}.

(** [str(v)], which is also what an f-string field prints. It raises
    [ValueError] on an int beyond the conversion limit. *)
Definition py_str `{PyRuntime} (v : value) : outcome string :=
  match v with
  | VStr s => Return s
  | VInt z => int_str z
  | VBool true => Return "True"
  | VBool false => Return "False"
  | VNone => Return "None"
  | VFloat _ | VList _ | VDict _ => py_repr v
  end.

(** [s.encode("utf-8")] *)
Definition str_encode (s : string) : list byte := list_byte_of_string s.

(** ** The outside world: sockets *)

Module Net.

(** A socket object, named by the order of its creation. *)
Definition socket : Type := nat.

(** The calls the server makes on the socket library. *)
Inductive call : Type :=
| NewSocket                                        (* socket.socket(AF_INET, SOCK_STREAM) *)
| Settimeout (s : socket) (seconds : Z)            (* s.settimeout(seconds) *)
| Connect (s : socket) (host : string) (port : Z)  (* s.connect((host, port)) *)
| Sendall (s : socket) (data : list byte)          (* s.sendall(data) *)
| Recv (s : socket) (bufsize : Z)                  (* s.recv(bufsize) *)
| Close (s : socket).                              (* s.close() *)

(** What the world answers to a call: it completes, handing back bytes
    when the call is a [recv], or it raises [OSError] with a message. *)
Inductive answer : Type :=
| Done (data : list byte)
| Fails (msg : string).

Record event : Type := Ev { ev_call : call; ev_answer : answer }.

(** The world holds the answers it will give to the coming calls, in
    order, the calls made so far with their answers, and the number of
    sockets created. A world whose answers are used up stays silent, and
    the call waiting on it times out. A peer that sends bytes without
    end and never a line terminator is the one behaviour a finite plan
    leaves out: there [send_command] does not return. *)
Record World : Type := mkWorld {
  plan : list answer;
  trace : list event;
  sockets : nat
}.

Definition timed_out : string := "timed out".

Definition ask (c : call) (w : World) : answer * World :=
  match plan w with
  | [] => (Fails timed_out, mkWorld [] (trace w ++ [Ev c (Fails timed_out)]) (sockets w))
  | a :: rest => (a, mkWorld rest (trace w ++ [Ev c a]) (sockets w))
  end.

(** The bytes that reached a transport: the payloads of the [sendall]
    calls that completed. *)
Fixpoint written (tr : list event) : list byte :=
  match tr with
  | [] => []
  | Ev (Sendall _ data) (Done _) :: rest => data ++ written rest
  | _ :: rest => written rest
  end.

Definition is_recv (e : event) : bool :=
  match ev_call e with Recv _ _ => true | _ => false end.

Definition is_sendall (e : event) : bool :=
  match ev_call e with Sendall _ _ => true | _ => false end.

End Net.
Import Net.

(** ** The client object and the monad of its methods *)

Definition RECLASS_HOST : string := "127.0.0.1".
Definition RECLASS_PORT : Z := 27015.

Record ReClassClient : Type := mkClient {
  host : string;
  port : Z;
  sock : option socket
}.

(** [ReClassClient.__init__] *)
Definition new_client (h : string) (p : Z) : ReClassClient := mkClient h p None.

Record State : Type := mkState {
  self : ReClassClient;
  world : World
}.

Definition M (A : Type) : Type := State -> outcome A * State.

Definition ret {A} (a : A) : M A := fun st => (Return a, st).

Definition bind {A B} (m : M A) (k : A -> M B) : M B :=
  fun st =>
    match m st with
    | (Return a, st') => k a st'
    | (Raise e, st') => (Raise e, st')
    end.

Definition raise {A} (e : exn) : M A := fun st => (Raise e, st).

(** [try: body  except Exception as e: handler e] *)
Definition try_except {A} (body : M A) (handler : exn -> M A) : M A :=
  fun st =>
    match body st with
    | (Return a, st') => (Return a, st')
    | (Raise e, st') => handler e st'
    end.

Definition lift {A} (o : outcome A) : M A := fun st => (o, st).

Declare Scope py_scope.
Delimit Scope py_scope with py.
Notation "x <- c ;; k" := (bind c (fun x => k))
  (at level 61, c at next level, right associativity) : py_scope.
Notation "c ;;; k" := (bind c (fun _ => k))
  (at level 61, right associativity) : py_scope.
Local Open Scope py_scope.

Definition get_sock : M (option socket) := fun st => (Return (sock (self st)), st).

(** [self.sock = v] *)
Definition set_sock (v : option socket) : M unit :=
  fun st => (Return tt, mkState (mkClient (host (self st)) (port (self st)) v) (world st)).

Definition get_host : M string := fun st => (Return (host (self st)), st).
Definition get_port : M Z := fun st => (Return (port (self st)), st).

(** A call on the socket library, run against the world. *)
Definition io (c : call) : M (list byte) :=
  fun st =>
    match ask c (world st) with
    | (Done data, w) => (Return data, mkState (self st) w)
    | (Fails msg, w) => (Raise (OSError msg), mkState (self st) w)
    end.

Definition socket_socket : M socket :=
  fun st =>
    match ask NewSocket (world st) with
    | (Done _, w) =>
        (Return (sockets w), mkState (self st) (mkWorld (plan w) (trace w) (S (sockets w))))
    | (Fails msg, w) => (Raise (OSError msg), mkState (self st) w)
    end.

(** Setting the timeout asks nothing of the world; it is only recorded. *)
Definition sock_settimeout (s : socket) (seconds : Z) : M unit :=
  fun st =>
    let w := world st in
    (Return tt,
     mkState (self st)
       (mkWorld (plan w) (trace w ++ [Ev (Settimeout s seconds) (Done [])]) (sockets w))).

Definition sock_connect (s : socket) (h : string) (p : Z) : M unit :=
  io (Connect s h p) ;;; ret tt.

Definition sock_sendall (s : socket) (data : list byte) : M unit :=
  io (Sendall s data) ;;; ret tt.

Definition sock_recv (s : socket) (bufsize : Z) : M (list byte) :=
  io (Recv s bufsize).

Definition sock_close (s : socket) : M unit :=
  io (Close s) ;;; ret tt.

(** [self.sock.m(...)]: on [None] the attribute lookup raises. *)
Definition self_sock (method : string) : M socket :=
  o <- get_sock ;;
  match o with
  | Some s => ret s
  | None =>
      raise (AttributeError
               (squote ++ "NoneType" ++ squote ++ " object has no attribute "
                ++ squote ++ method ++ squote))
  end.

Module Client.

(** [ReClassClient.connect] *)
Definition connect : M bool :=
  try_except
    (s <- socket_socket ;;
     set_sock (Some s) ;;;
     s <- self_sock "settimeout" ;;
     sock_settimeout s 10 ;;;
     s <- self_sock "connect" ;;
     h <- get_host ;;
     p <- get_port ;;
     sock_connect s h p ;;;
     ret true)
    (fun _ =>
     set_sock None ;;;
     ret false).

(** [ReClassClient.disconnect] *)
Definition disconnect : M unit :=
  o <- get_sock ;;
  match o with
  | Some _ =>
      try_except
        (s <- self_sock "close" ;;
         sock_close s)
        (fun _ => ret tt) ;;;
      set_sock None
  | None => ret tt
  end.

End Client.

Module Relay.
Import Client.

(** [b"\n" in response] *)
Definition has_newline (response : list byte) : bool :=
  existsb (Byte.eqb x0a) response.

(** The read loop of [send_command] on the socket [s]:
<<
    while True:
        chunk = self.sock.recv(4096)
        if not chunk: break
        response += chunk
        if b"\n" in response: break
>>
    Every turn takes one answer of the world, so the loop is written by
    recursion on the answers left; [recv_loop_turn] below shows that one
    turn is the body above around [sock_recv]. *)
Fixpoint recv_loop (s : socket) (response : list byte) (c : ReClassClient)
    (pl : list answer) (tr : list event) (n : nat) : outcome (list byte) * State :=
  match pl with
  | [] =>
      (Raise (OSError timed_out),
       mkState c (mkWorld [] (tr ++ [Ev (Recv s 4096) (Fails timed_out)]) n))
  | Fails msg :: rest =>
      (Raise (OSError msg),
       mkState c (mkWorld rest (tr ++ [Ev (Recv s 4096) (Fails msg)]) n))
  | Done chunk :: rest =>
      let tr' := tr ++ [Ev (Recv s 4096) (Done chunk)] in
      match chunk with
      | [] => (Return response, mkState c (mkWorld rest tr' n))
      | _ :: _ =>
          let response' := response ++ chunk in
          if has_newline response'
          then (Return response', mkState c (mkWorld rest tr' n))
          else recv_loop s response' c rest tr' n
      end
  end.

Definition read_response (s : socket) (response : list byte) : M (list byte) :=
  fun st =>
    recv_loop s response (self st)
      (plan (world st)) (trace (world st)) (sockets (world st)).

(** [{"success": False, "error": msg}] *)
Definition failure (msg : string) : value :=
  VDict [("success", VBool false); ("error", VStr msg)].

(** [args or {}] *)
Definition or_empty (args : option dict) : dict :=
  match args with
  | Some ((_ :: _) as d) => d
  | _ => []
  end.

(** [{"command": command, "args": args or {}}] *)
Definition request_of (command : string) (args : option dict) : value :=
  VDict [("command", VStr command); ("args", VDict (or_empty args))].

(** The body of the [try] of [send_command]: write the line, read the
    response, decode it. *)
Definition send_command_try `{PyRuntime} (request : value) : M value :=
  s <- self_sock "sendall" ;;
  sock_sendall s (str_encode (json_dumps request ++ newline)) ;;;
  s <- self_sock "recv" ;;
  response <- read_response s [] ;;
  text <- lift (bytes_decode response) ;;
  lift (json_loads (str_strip text)).

(** The [except Exception as e] of [send_command]. *)
Definition send_command_except (e : exn) : M value :=
  disconnect ;;;
  ret (failure (exn_str e)).

(** [ReClassClient.send_command] *)
Definition send_command `{PyRuntime} (command : string) (args : option dict) : M value :=
  let exchange :=
    let request := request_of command args in
    try_except (send_command_try request) send_command_except in
  o <- get_sock ;;
  match o with
  | None =>
      connected <- connect ;;
      if negb connected
      then ret (failure "Failed to connect to ReClass.NET plugin")
      else exchange
  | Some _ => exchange
  end.

End Relay.

(** ** The tool catalogue *)

Record Property : Type := mkProperty {
  property_type : string;
  property_description : string
}.

Record Schema : Type := mkSchema {
  properties : list (string * Property);
  required : list string
}.

Record Tool : Type := mkTool {
  name : string;
  description : string;
  inputSchema : Schema
}.

Definition no_parameters : Schema := mkSchema [] [].

(** [list_tools] *)
Definition list_tools : list Tool :=
  [ mkTool "IsConnected"
      "Check if ReClass.NET plugin is available and connected"
      no_parameters;
    mkTool "GetStatus"
      "Get the current status of ReClass.NET, including attached process information"
      no_parameters;
    mkTool "GetProcessInfo"
      "Get detailed information about the currently attached process"
      no_parameters;
    mkTool "ReadMemory"
      "Read memory from the attached process"
      (mkSchema
         [("address", mkProperty "string"
             "Memory address in hex (e.g., '0x7FF12345') or as module+offset (e.g., 'game.exe+0x1234')");
          ("size", mkProperty "integer" "Number of bytes to read (max 65536)")]
         ["address"; "size"]);
    mkTool "WriteMemory"
      "Write memory to the attached process"
      (mkSchema
         [("address", mkProperty "string" "Memory address in hex (e.g., '0x7FF12345')");
          ("data", mkProperty "string" "Hex string of bytes to write (e.g., '90909090')")]
         ["address"; "data"]);
    mkTool "GetModules"
      "Get list of loaded modules in the attached process"
      no_parameters;
    mkTool "GetSections"
      "Get list of memory sections in the attached process"
      no_parameters;
    mkTool "GetClasses"
      "Get list of all classes/structures defined in the current ReClass.NET project"
      no_parameters;
    mkTool "GetClass"
      "Get detailed information about a specific class including all its nodes/fields"
      (mkSchema
         [("identifier", mkProperty "string" "Class UUID or name")]
         ["identifier"]);
    mkTool "GetNodes"
      "Get all nodes/fields of a specific class"
      (mkSchema
         [("class_id", mkProperty "string" "Class UUID or name")]
         ["class_id"]);
    mkTool "ParseAddress"
      "Parse an address formula and return the calculated address"
      (mkSchema
         [("formula", mkProperty "string"
             "Address formula (e.g., '0x7FF12345', 'game.exe+0x1234')")]
         ["formula"]);
    mkTool "CreateClass"
      "Create a new class/structure in the ReClass.NET project"
      (mkSchema
         [("name", mkProperty "string" "Name for the new class");
          ("address", mkProperty "string" "Base address formula for the class (optional)")]
         ["name"]);
    mkTool "AddNode"
      "Add a new node/field to a class"
      (mkSchema
         [("class_id", mkProperty "string" "Class UUID or name");
          ("type", mkProperty "string"
             "Node type (e.g., 'int32', 'float', 'pointer', 'hex64', 'utf8text')");
          ("name", mkProperty "string" "Name for the new node (optional)")]
         ["class_id"; "type"]);
    mkTool "RenameNode"
      "Rename a node/field in a class"
      (mkSchema
         [("class_id", mkProperty "string" "Class UUID or name");
          ("node_index", mkProperty "integer" "Index of the node in the class");
          ("name", mkProperty "string" "New name for the node")]
         ["class_id"; "node_index"; "name"]);
    mkTool "SetComment"
      "Set a comment on a node/field"
      (mkSchema
         [("class_id", mkProperty "string" "Class UUID or name");
          ("node_index", mkProperty "integer" "Index of the node in the class");
          ("comment", mkProperty "string" "Comment text")]
         ["class_id"; "node_index"; "comment"]);
    mkTool "ChangeNodeType"
      "Change the type of a node/field"
      (mkSchema
         [("class_id", mkProperty "string" "Class UUID or name");
          ("node_index", mkProperty "integer" "Index of the node in the class");
          ("type", mkProperty "string" "New node type (e.g., 'int32', 'float', 'pointer')")]
         ["class_id"; "node_index"; "type"]) ].

Definition tool_names : list string := map name list_tools.

(** ** Tool dispatch *)

Record TextContent : Type := mkTextContent {
  type : string;
  text : string
}.

Module Dispatch.
Import Relay.

(** [[TextContent(type="text", text=json.dumps(result, indent=2))]] *)
Definition dumped `{PyRuntime} (result : value) : list TextContent :=
  [mkTextContent "text" (json_dumps_indent 2 result)].

(** [call_tool]; the module-level [client] is the client of the state. *)
Definition call_tool `{PyRuntime} (name : string) (arguments : dict)
  : M (list TextContent) :=
  if name =? "IsConnected" then
    result <- send_command "ping" None ;;
    success <- lift (get result "success" VNone) ;;
    if truthy success
    then ret [mkTextContent "text" "Connected to ReClass.NET plugin"]
    else
      error <- lift (get result "error" (VStr "Unknown error")) ;;
      error_text <- lift (py_str error) ;;
      ret [mkTextContent "text" ("Not connected: " ++ error_text)]
  else if name =? "GetStatus" then
    result <- send_command "get_status" None ;;
    ret (dumped result)
  else if name =? "GetProcessInfo" then
    result <- send_command "get_process_info" None ;;
    ret (dumped result)
  else if name =? "ReadMemory" then
    address <- lift (getitem arguments "address") ;;
    size <- lift (getitem arguments "size") ;;
    size_text <- lift (py_str size) ;;
    result <- send_command "read_memory"
                (Some [("address", address); ("size", VStr size_text)]) ;;
    ret (dumped result)
  else if name =? "WriteMemory" then
    address <- lift (getitem arguments "address") ;;
    data <- lift (getitem arguments "data") ;;
    result <- send_command "write_memory"
                (Some [("address", address); ("data", data)]) ;;
    ret (dumped result)
  else if name =? "GetModules" then
    result <- send_command "get_modules" None ;;
    ret (dumped result)
  else if name =? "GetSections" then
    result <- send_command "get_sections" None ;;
    ret (dumped result)
  else if name =? "GetClasses" then
    result <- send_command "get_classes" None ;;
    ret (dumped result)
  else if name =? "GetClass" then
    identifier <- lift (getitem arguments "identifier") ;;
    result <- send_command "get_class" (Some [("id", identifier)]) ;;
    ret (dumped result)
  else if name =? "GetNodes" then
    class_id <- lift (getitem arguments "class_id") ;;
    result <- send_command "get_nodes" (Some [("class_id", class_id)]) ;;
    ret (dumped result)
  else if name =? "ParseAddress" then
    formula <- lift (getitem arguments "formula") ;;
    result <- send_command "parse_address" (Some [("formula", formula)]) ;;
    ret (dumped result)
  else if name =? "CreateClass" then
    name_ <- lift (getitem arguments "name") ;;
    let args := [("name", name_)] in
    args <- (if contains arguments "address"
             then
               address <- lift (getitem arguments "address") ;;
               ret (setitem args "address" address)
             else ret args) ;;
    result <- send_command "create_class" (Some args) ;;
    ret (dumped result)
  else if name =? "AddNode" then
    class_id <- lift (getitem arguments "class_id") ;;
    type_ <- lift (getitem arguments "type") ;;
    let args := [("class_id", class_id); ("type", type_)] in
    args <- (if contains arguments "name"
             then
               name_ <- lift (getitem arguments "name") ;;
               ret (setitem args "name" name_)
             else ret args) ;;
    result <- send_command "add_node" (Some args) ;;
    ret (dumped result)
  else if name =? "RenameNode" then
    class_id <- lift (getitem arguments "class_id") ;;
    node_index <- lift (getitem arguments "node_index") ;;
    name_ <- lift (getitem arguments "name") ;;
    result <- send_command "rename_node"
                (Some [("class_id", class_id); ("node_index", node_index);
                       ("name", name_)]) ;;
    ret (dumped result)
  else if name =? "SetComment" then
    class_id <- lift (getitem arguments "class_id") ;;
    node_index <- lift (getitem arguments "node_index") ;;
    comment <- lift (getitem arguments "comment") ;;
    result <- send_command "set_comment"
                (Some [("class_id", class_id); ("node_index", node_index);
                       ("comment", comment)]) ;;
    ret (dumped result)
  else if name =? "ChangeNodeType" then
    class_id <- lift (getitem arguments "class_id") ;;
    node_index <- lift (getitem arguments "node_index") ;;
    type_ <- lift (getitem arguments "type") ;;
    result <- send_command "change_node_type"
                (Some [("class_id", class_id); ("node_index", node_index);
                       ("type", type_)]) ;;
    ret (dumped result)
  else
    ret [mkTextContent "text" ("Unknown tool: " ++ name)].

End Dispatch.

(** ** A runtime to run the model on examples *)

Module Sample.

(** The encoders follow CPython's [json.dumps] for None, booleans,
    integers within the conversion limit, ASCII strings, lists and dicts.
    Two things are simplified and occur in no example: [repr] quotes a
    string without escaping it, and a finite non-zero float is printed as
    a placeholder. The decoder
    knows the response texts listed in [known_responses] and takes any
    other text for malformed JSON; [decode] accepts ASCII bytes. *)

Definition dquote : string := String "034" "".
Definition backslash : string := String "092" "".

Definition hex_digit (n : nat) : ascii :=
  nth n (list_ascii_of_string "0123456789abcdef") "0"%char.

Definition escape_char (c : ascii) : string :=
  let n := nat_of_ascii c in
  if (n =? 34)%nat then backslash ++ dquote
  else if (n =? 92)%nat then backslash ++ backslash
  else if (n =? 10)%nat then backslash ++ "n"
  else if (n =? 13)%nat then backslash ++ "r"
  else if (n =? 9)%nat then backslash ++ "t"
  else if (n =? 8)%nat then backslash ++ "b"
  else if (n =? 12)%nat then backslash ++ "f"
  else if ((n <? 32)%nat || (n =? 127)%nat)%bool
       then backslash ++ "u00"
            ++ String (hex_digit (n / 16)) (String (hex_digit (n mod 16)) "")
  else String c "".

Definition quoted (s : string) : string :=
  dquote ++ String.concat "" (map escape_char (list_ascii_of_string s)) ++ dquote.

Definition float_json (f : spec_float) : string :=
  match f with
  | S754_zero false => "0.0"
  | S754_zero true => "-0.0"
  | S754_infinity false => "Infinity"
  | S754_infinity true => "-Infinity"
  | S754_nan => "NaN"
  | S754_finite _ _ _ => "<float>"
  end.

Definition float_repr (f : spec_float) : string :=
  match f with
  | S754_zero false => "0.0"
  | S754_zero true => "-0.0"
  | S754_infinity false => "inf"
  | S754_infinity true => "-inf"
  | S754_nan => "nan"
  | S754_finite _ _ _ => "<float>"
  end.

Fixpoint dumps (v : value) : string :=
  match v with
  | VNone => "null"
  | VBool true => "true"
  | VBool false => "false"
  | VInt z => str_of_int z
  | VFloat f => float_json f
  | VStr s => quoted s
  | VList l => "[" ++ String.concat ", " (map dumps l) ++ "]"
  | VDict d =>
      "{" ++ String.concat ", " (map (fun kv => (quoted (fst kv) ++ ": " ++ dumps (snd kv))%string) d) ++ "}"
  end.

Fixpoint spaces (n : nat) : string :=
  match n with
  | O => ""
  | S k => " " ++ spaces k
  end.

Fixpoint dumps_indent (n level : nat) (v : value) : string :=
  let inner := (newline ++ spaces (n * S level))%string in
  let outer := (newline ++ spaces (n * level))%string in
  match v with
  | VList ((_ :: _) as l) =>
      "[" ++ inner
      ++ String.concat ("," ++ inner) (map (dumps_indent n (S level)) l)
      ++ outer ++ "]"
  | VDict ((_ :: _) as d) =>
      "{" ++ inner
      ++ String.concat ("," ++ inner)
           (map (fun kv => (quoted (fst kv) ++ ": " ++ dumps_indent n (S level) (snd kv))%string) d)
      ++ outer ++ "}"
  | _ => dumps v
  end.

Definition quoted_repr (s : string) : string := squote ++ s ++ squote.

(** The texts of the items, or the first exception among them. *)
Fixpoint collect (items : list (outcome string)) : outcome (list string) :=
  match items with
  | [] => Return []
  | Raise e :: _ => Raise e
  | Return s :: rest =>
      match collect rest with
      | Return ss => Return (s :: ss)
      | Raise e => Raise e
      end
  end.

Definition enclosed (opening closing : string) (items : outcome (list string))
  : outcome string :=
  match items with
  | Return ss => Return (opening ++ String.concat ", " ss ++ closing)%string
  | Raise e => Raise e
  end.

Fixpoint repr (v : value) : outcome string :=
  match v with
  | VNone => Return "None"
  | VBool true => Return "True"
  | VBool false => Return "False"
  | VInt z => int_str z
  | VFloat f => Return (float_repr f)
  | VStr s => Return (quoted_repr s)
  | VList l => enclosed "[" "]" (collect (map repr l))
  | VDict d =>
      enclosed "{" "}"
        (collect (map (fun kv =>
                         match repr (snd kv) with
                         | Return s => Return (quoted_repr (fst kv) ++ ": " ++ s)%string
                         | Raise e => Raise e
                         end) d))
  end.

Definition is_space (c : ascii) : bool :=
  let n := nat_of_ascii c in
  ((n =? 32) || ((9 <=? n) && (n <=? 13)) || ((28 <=? n) && (n <=? 31)))%nat.

Fixpoint lstrip (l : list ascii) : list ascii :=
  match l with
  | c :: rest => if is_space c then lstrip rest else l
  | [] => []
  end.

Definition strip (s : string) : string :=
  string_of_list_ascii (rev (lstrip (rev (lstrip (list_ascii_of_string s))))).

Definition is_ascii (b : byte) : bool := (Byte.to_nat b <? 128)%nat.

Definition decode (b : list byte) : outcome string :=
  if forallb is_ascii b
  then Return (string_of_list_byte b)
  else Raise (UnicodeDecodeError "'utf-8' codec can't decode bytes: not ASCII").

Definition known_responses : list value :=
  [ VDict [];
    VList [];
    VDict [("success", VBool true)];
    VDict [("success", VStr "yes")];
    VDict [("success", VBool false); ("error", VStr "No process attached")];
    VDict [("success", VBool false)];
    VDict [("success", VBool true); ("data", VStr "4d5a9000")] ].

Definition loads (s : string) : outcome value :=
  match find (fun v => dumps v =? s) known_responses with
  | Some v => Return v
  | None => Raise (JSONDecodeError "Expecting value: line 1 column 1 (char 0)")
  end.

#[local] Instance runtime : PyRuntime := {|
  json_dumps := dumps;
  json_dumps_indent := fun n v => dumps_indent (Z.to_nat n) 0 v;
  json_loads := loads;
  bytes_decode := decode;
  str_strip := strip;
  py_repr := repr
|}.

(** The bytes of a line of text as the peer sends it. *)
Definition line (s : string) : list byte := str_encode (s ++ newline).

(** A client that never connected, in a world with the given answers. *)
Definition fresh (answers : list answer) : State :=
  mkState (new_client RECLASS_HOST RECLASS_PORT) (mkWorld answers [] 0).

(** A client connected on socket 0. *)
Definition connected (answers : list answer) : State :=
  mkState (mkClient RECLASS_HOST RECLASS_PORT (Some 0%nat)) (mkWorld answers [] 1).

End Sample.

(** ** Vocabulary of the statements *)

Module Spec.
Import Client Relay.

(** The world will answer both steps of [connect]: the socket is created
    and the connection goes through. *)
Definition transport_established (w : World) : bool :=
  match plan w with
  | Done _ :: Done _ :: _ => true
  | _ => false
  end.

(** The state in which the exchange of [send_command] starts: the client
    was connected already, or [connect] has just succeeded. *)
Definition exchange_starts (st st1 : State) : Prop :=
  match sock (self st) with
  | Some _ => st1 = st
  | None => connect st = (Return true, st1)
  end.

(** The calls recorded in [st'] continue those recorded in [st]. *)
Definition extends (st st' : State) : Prop :=
  exists evs, trace (world st') = trace (world st) ++ evs.

Definition grows {A} (m : M A) : Prop :=
  forall st, extends st (snd (m st)).






Definition is_str (v : value) : bool :=
  match v with VStr _ => true | _ => false end.

(** Every value of the mapping is a string. *)
Definition string_valued (d : dict) : bool :=
  forallb (fun kv => is_str (snd kv)) d.

End Spec.
Import Spec.

(** ** Vocabulary of the further statements *)

Module Calls.

(** How many of the recorded calls satisfy [p]. *)
Definition count_calls (p : call -> bool) (evs : list event) : nat :=
  length (filter (fun ev => p (ev_call ev)) evs).

Definition creates_socket (c : call) : bool :=
  match c with NewSocket => true | _ => false end.

Definition connects (c : call) : bool :=
  match c with Connect _ _ _ => true | _ => false end.

Definition sends (c : call) : bool :=
  match c with Sendall _ _ => true | _ => false end.

Definition receives (c : call) : bool :=
  match c with Recv _ _ => true | _ => false end.

Definition closes (c : call) : bool :=
  match c with Close _ => true | _ => false end.

(** The calls of one [send_command] or one [call_tool]: one attempt at
    most of each kind, apart from the reads. *)
Definition single_attempt (evs : list event) : Prop :=
  count_calls creates_socket evs <= 1 /\
  count_calls connects evs <= 1 /\
  count_calls sends evs <= 1 /\
  count_calls closes evs <= 1.

(** The socket the client holds is one the world created. *)
Definition holds_created_socket (st : State) : Prop :=
  match sock (self st) with
  | Some s => s < sockets (world st)
  | None => True
  end.

End Calls.
Import Calls.

Module Catalogue.

(** The remote command of each tool, as the branches of [call_tool] name
    it. *)
Definition tool_commands : list (string * string) :=
  [ ("IsConnected", "ping");
    ("GetStatus", "get_status");
    ("GetProcessInfo", "get_process_info");
    ("ReadMemory", "read_memory");
    ("WriteMemory", "write_memory");
    ("GetModules", "get_modules");
    ("GetSections", "get_sections");
    ("GetClasses", "get_classes");
    ("GetClass", "get_class");
    ("GetNodes", "get_nodes");
    ("ParseAddress", "parse_address");
    ("CreateClass", "create_class");
    ("AddNode", "add_node");
    ("RenameNode", "rename_node");
    ("SetComment", "set_comment");
    ("ChangeNodeType", "change_node_type") ].

(** The parameters a tool declares. *)
Definition declared_keys (t : Tool) : list string :=
  map fst (properties (inputSchema t)).

(** The first of [keys] that the arguments do not carry. *)
Definition first_missing (arguments : dict) (keys : list string) : option string :=
  find (fun key => negb (contains arguments key)) keys.

(** [str()] returns on the size of a ReadMemory call; the other tools
    call no [str()]. *)
Definition size_prints `{PyRuntime} (t : Tool) (arguments : dict) : Prop :=
  name t = "ReadMemory" ->
  forall size, lookup arguments "size" = Some size ->
  exists text, py_str size = Return text.

End Catalogue.
Import Catalogue.

(** * Properties *)

Import Client Relay Dispatch.

(** ** The monad and the world *)

Lemma bind_return {A B} (m : M A) (k : A -> M B) st a st' :
  m st = (Return a, st') -> bind m k st = k a st'.
Proof. intros Hm. unfold bind. rewrite Hm. reflexivity. Qed.

Lemma try_except_return {A} (body : M A) handler st a st' :
  body st = (Return a, st') -> try_except body handler st = (Return a, st').
Proof. intros Hb. unfold try_except. rewrite Hb. reflexivity. Qed.

Lemma try_except_raise {A} (body : M A) handler st e st' :
  body st = (Raise e, st') -> try_except body handler st = handler e st'.
Proof. intros Hb. unfold try_except. rewrite Hb. reflexivity. Qed.

Lemma written_app tr1 tr2 : written (tr1 ++ tr2) = written tr1 ++ written tr2.
Proof.
  induction tr1 as [|[c a] tr1 IH]; [reflexivity|].
  destruct c; simpl; try exact IH.
  destruct a; simpl; [|exact IH].
  rewrite IH. apply app_assoc.
Qed.

Lemma written_no_sendall tr : forallb (fun e => negb (is_sendall e)) tr = true -> written tr = [].
Proof.
  induction tr as [|[c a] tr IH]; [reflexivity|].
  simpl. intros H. apply andb_prop in H. destruct H as [Hc Htr].
  destruct c; simpl in *; auto; discriminate.
Qed.

Lemma str_encode_app s1 s2 : str_encode (s1 ++ s2) = str_encode s1 ++ str_encode s2.
Proof.
  unfold str_encode, list_byte_of_string.
  induction s1 as [|c s1 IH]; [reflexivity|].
  simpl. rewrite IH. reflexivity.
Qed.

Lemma str_encode_newline : str_encode newline = [x0a].
Proof. reflexivity. Qed.

(** ** connect and disconnect *)

(** What [connect] does, by the answers of the world to the creation of
    the socket and to the connection. *)
Lemma connect_cases st :
  let w := world st in
  let c := self st in
  connect st =
  match plan w with
  | [] =>
      (Return false,
       mkState (mkClient (host c) (port c) None)
         (mkWorld [] (trace w ++ [Ev NewSocket (Fails timed_out)]) (sockets w)))
  | Fails msg :: rest =>
      (Return false,
       mkState (mkClient (host c) (port c) None)
         (mkWorld rest (trace w ++ [Ev NewSocket (Fails msg)]) (sockets w)))
  | Done d :: rest =>
      let s := sockets w in
      let tr := (trace w ++ [Ev NewSocket (Done d)]) ++ [Ev (Settimeout s 10) (Done [])] in
      match rest with
      | [] =>
          (Return false,
           mkState (mkClient (host c) (port c) None)
             (mkWorld [] (tr ++ [Ev (Connect s (host c) (port c)) (Fails timed_out)]) (S s)))
      | Fails msg :: rest' =>
          (Return false,
           mkState (mkClient (host c) (port c) None)
             (mkWorld rest' (tr ++ [Ev (Connect s (host c) (port c)) (Fails msg)]) (S s)))
      | Done d' :: rest' =>
          (Return true,
           mkState (mkClient (host c) (port c) (Some s))
             (mkWorld rest' (tr ++ [Ev (Connect s (host c) (port c)) (Done d')]) (S s)))
      end
  end.
Proof.
  destruct st as [c [pl tr n]]. simpl.
  destruct pl as [|[d|msg] rest]; try reflexivity.
  destruct rest as [|[d'|msg] rest']; reflexivity.
Qed.

(** [connect] writes nothing. *)
Lemma connect_trace st :
  exists evs,
    trace (world (snd (connect st))) = trace (world st) ++ evs /\
    forallb (fun e => negb (is_sendall e)) evs = true.
Proof.
  rewrite connect_cases. cbv zeta.
  destruct (plan (world st)) as [|[d|msg] rest]; simpl.
  1,3: eexists; split; [reflexivity|reflexivity].
  destruct rest as [|[d'|msg] rest']; simpl; rewrite <- !app_assoc; simpl;
    eexists; (split; [reflexivity|reflexivity]).
Qed.

Lemma connect_failure_absent st :
  (forall st', connect st = (Return false, st') -> sock (self st') = None) /\
  (forall e st', connect st <> (Raise e, st')).
Proof.
  rewrite connect_cases. cbv zeta.
  destruct (plan (world st)) as [|[d|msg] rest].
  - split; [intros st' H; inversion H; reflexivity | discriminate].
  - destruct rest as [|[d'|msg] rest'];
      (split; [intros st' H; inversion H; reflexivity | discriminate]).
  - split; [intros st' H; inversion H; reflexivity | discriminate].
Qed.

(** C7: connect returns a boolean and never raises; the boolean tells
    whether the transport was established (the socket was created and the
    connection went through); when it is false the connection is absent
    afterwards, and when it is true the client holds the new socket. *)
Theorem connect_returns_bool_never_raises :
  forall st : State,
  exists (b : bool) (st' : State),
    connect st = (Return b, st') /\
    b = transport_established (world st) /\
    (b = false -> sock (self st') = None) /\
    (b = true -> sock (self st') = Some (sockets (world st))).
Proof.
  intros st. rewrite connect_cases. cbv zeta. unfold transport_established.
  destruct (plan (world st)) as [|[d|msg] rest].
  - do 2 eexists. repeat split; try reflexivity; discriminate.
  - destruct rest as [|[d'|msg] rest'];
      do 2 eexists; repeat split; try reflexivity; discriminate.
  - do 2 eexists. repeat split; try reflexivity; discriminate.
Qed.

(** What [disconnect] does: nothing without a connection; otherwise one
    [close], whatever its answer, and the connection is forgotten. *)
Lemma disconnect_cases st :
  let w := world st in
  let c := self st in
  disconnect st =
  match sock c with
  | None => (Return tt, st)
  | Some s =>
      (Return tt,
       mkState (mkClient (host c) (port c) None)
         (snd (ask (Close s) w)))
  end.
Proof.
  destruct st as [[h p [s|]] [pl tr n]]; simpl; [|reflexivity].
  destruct pl as [|[d|msg] rest]; reflexivity.
Qed.

(** C9: disconnect never raises and leaves the connection absent; called
    again at once it does nothing at all, so two calls in a row produce no
    error and the connection is absent after each. *)
Theorem disconnect_twice :
  forall st : State,
  exists st1 : State,
    disconnect st = (Return tt, st1) /\
    sock (self st1) = None /\
    disconnect st1 = (Return tt, st1) /\
    (bind disconnect (fun _ => disconnect)) st = disconnect st.
Proof.
  intros st.
  assert (H1 : exists st1, disconnect st = (Return tt, st1) /\ sock (self st1) = None).
  { rewrite disconnect_cases. cbv zeta.
    destruct (sock (self st)) eqn:Hs; eexists; split; try reflexivity. exact Hs. }
  destruct H1 as [st1 [H1 Hs1]].
  assert (H2 : disconnect st1 = (Return tt, st1)).
  { rewrite disconnect_cases. cbv zeta. rewrite Hs1. reflexivity. }
  exists st1. repeat split; auto.
  rewrite (bind_return _ _ _ _ _ H1). rewrite H2, H1. reflexivity.
Qed.

(** ** The trace only grows *)

Lemma extends_refl st : extends st st.
Proof. exists []. symmetry. apply app_nil_r. Qed.

Lemma extends_trans st1 st2 st3 : extends st1 st2 -> extends st2 st3 -> extends st1 st3.
Proof.
  intros [e1 H1] [e2 H2]. exists (e1 ++ e2).
  rewrite H2, H1. symmetry. apply app_assoc.
Qed.

Lemma grows_ret {A} (a : A) : grows (ret a).
Proof. intros st. apply extends_refl. Qed.

Lemma grows_raise {A} e : grows (@raise A e).
Proof. intros st. apply extends_refl. Qed.

Lemma grows_lift {A} (o : outcome A) : grows (lift o).
Proof. intros st. apply extends_refl. Qed.

Lemma grows_bind {A B} (m : M A) (k : A -> M B) :
  grows m -> (forall a, grows (k a)) -> grows (bind m k).
Proof.
  intros Hm Hk st. unfold bind. specialize (Hm st).
  destruct (m st) as [[a|e] st1]; simpl in *; [|exact Hm].
  eapply extends_trans; [exact Hm | apply Hk].
Qed.

Lemma grows_try_except {A} (body : M A) handler :
  grows body -> (forall e, grows (handler e)) -> grows (try_except body handler).
Proof.
  intros Hb Hh st. unfold try_except. specialize (Hb st).
  destruct (body st) as [[a|e] st1]; simpl in *; [exact Hb|].
  eapply extends_trans; [exact Hb | apply Hh].
Qed.

Lemma ask_trace c w : trace (snd (ask c w)) = trace w ++ [Ev c (fst (ask c w))].
Proof. unfold ask. destruct (plan w); reflexivity. Qed.

Lemma grows_io c : grows (io c).
Proof.
  intros st. unfold io. pose proof (ask_trace c (world st)) as H.
  destruct (ask c (world st)) as [[d|msg] w]; simpl in *; eexists; exact H.
Qed.

Lemma grows_get_sock : grows get_sock.
Proof. intros st. apply extends_refl. Qed.

Lemma grows_set_sock v : grows (set_sock v).
Proof. intros st. exists []. symmetry. apply app_nil_r. Qed.

Lemma grows_self_sock method : grows (self_sock method).
Proof.
  apply grows_bind; [apply grows_get_sock|].
  intros [s|]; [apply grows_ret | apply grows_raise].
Qed.

Create HintDb grows.
#[local] Hint Resolve grows_ret grows_raise grows_lift grows_io grows_get_sock
  grows_set_sock grows_self_sock : grows.

Lemma grows_disconnect : grows disconnect.
Proof.
  apply grows_bind; [auto with grows|].
  intros [s|]; [|auto with grows].
  apply grows_bind; [|auto with grows].
  apply grows_try_except; [|auto with grows].
  apply grows_bind; [auto with grows|].
  intros s'. apply grows_bind; auto with grows.
Qed.

(** The read loop records [recv] calls and nothing else, and leaves the
    client and the socket count alone. *)
Lemma recv_loop_trace s : forall pl response c tr n,
  let r := recv_loop s response c pl tr n in
  self (snd r) = c /\
  sockets (world (snd r)) = n /\
  exists evs, trace (world (snd r)) = tr ++ evs /\ forallb is_recv evs = true.
Proof.
  induction pl as [|[chunk|msg] rest IH]; intros response c tr n; simpl.
  - repeat split. eexists; split; reflexivity.
  - destruct chunk as [|b chunk'].
    + repeat split. eexists; split; reflexivity.
    + destruct (has_newline (response ++ b :: chunk')).
      * repeat split. eexists; split; reflexivity.
      * specialize (IH (response ++ b :: chunk') c
                       (tr ++ [Ev (Recv s 4096) (Done (b :: chunk'))]) n).
        cbv zeta in IH. destruct IH as [Hc [Hn [evs [Ht Hr]]]].
        repeat split; auto.
        exists (Ev (Recv s 4096) (Done (b :: chunk')) :: evs).
        rewrite Ht, <- app_assoc. split; [reflexivity|exact Hr].
  - repeat split. eexists; split; reflexivity.
Qed.

Lemma grows_read_response s response : grows (read_response s response).
Proof.
  intros st. unfold read_response.
  destruct (recv_loop_trace s (plan (world st)) response (self st)
              (trace (world st)) (sockets (world st))) as [_ [_ [evs [H _]]]].
  exists evs. exact H.
Qed.

(** One turn of the read loop is the body of the source's [while True]
    around one [recv]. *)
Lemma recv_loop_turn s response st :
  read_response s response st =
  (chunk <- sock_recv s 4096 ;;
   match chunk with
   | [] => ret response
   | _ :: _ =>
       let response' := response ++ chunk in
       if has_newline response' then ret response'
       else read_response s response'
   end) st.
Proof.
  destruct st as [c [pl tr n]]. unfold read_response, bind, sock_recv, io, ask. simpl.
  destruct pl as [|[chunk|msg] rest]; simpl; try reflexivity.
  destruct chunk as [|b chunk']; [reflexivity|].
  destruct (has_newline (response ++ b :: chunk')); reflexivity.
Qed.

(** ** send_command *)

Section Relay_facts.
Context `{RT : PyRuntime}.

(** The body of the [try], step by step. *)
Lemma send_command_try_cases request st :
  send_command_try request st =
  match sock (self st) with
  | None =>
      (Raise (AttributeError
                (squote ++ "NoneType" ++ squote ++ " object has no attribute "
                 ++ squote ++ "sendall" ++ squote)), st)
  | Some s =>
      match ask (Sendall s (str_encode (json_dumps request ++ newline))) (world st) with
      | (Fails msg, w) => (Raise (OSError msg), mkState (self st) w)
      | (Done _, w) =>
          match recv_loop s [] (self st) (plan w) (trace w) (sockets w) with
          | (Raise e, st') => (Raise e, st')
          | (Return response, st') =>
              match bytes_decode response with
              | Raise e => (Raise e, st')
              | Return text => (json_loads (str_strip text), st')
              end
          end
      end
  end.
Proof.
  destruct st as [[h p [s|]] w]; [|reflexivity].
  cbv [send_command_try bind self_sock get_sock sock_sendall io ret self world sock].
  destruct (ask _ w) as [[d|msg] w']; [|reflexivity].
  unfold read_response. simpl.
  destruct (recv_loop s [] _ (plan w') (trace w') (sockets w')) as [[response|e] st'];
    [|reflexivity].
  unfold lift. destruct (bytes_decode response) as [text|e]; [|reflexivity].
  destruct (json_loads (str_strip text)); reflexivity.
Qed.

Lemma grows_send_command_try request : grows (send_command_try request).
Proof.
  unfold send_command_try.
  apply grows_bind; [auto with grows|]. intros s.
  apply grows_bind.
  { apply grows_bind; auto with grows. }
  intros _. apply grows_bind; [auto with grows|]. intros s'.
  apply grows_bind; [apply grows_read_response|]. intros response.
  apply grows_bind; auto with grows.
Qed.

(** The handler closes the connection and hands the failure back. *)
Lemma send_command_except_cases e st :
  exists st',
    send_command_except e st = (Return (failure (exn_str e)), st') /\
    sock (self st') = None /\
    extends st st'.
Proof.
  unfold send_command_except.
  pose proof (disconnect_cases st) as Hd. cbv zeta in Hd.
  pose proof (grows_disconnect st) as Hg.
  destruct (disconnect st) as [[[]|e'] st'] eqn:Hdis.
  - exists st'. unfold bind. rewrite Hdis. simpl in Hg.
    repeat split; auto.
    destruct (sock (self st)) eqn:Hs; inversion Hd; subst; auto.
  - destruct (sock (self st)); discriminate.
Qed.

Lemma grows_send_command_except e : grows (send_command_except e).
Proof.
  intros st. destruct (send_command_except_cases e st) as [st' [H [_ Hx]]].
  rewrite H. exact Hx.
Qed.

(** After the connection step, [send_command] is the guarded exchange. *)
Lemma send_command_exchange command args st st1 :
  exchange_starts st st1 ->
  send_command command args st =
  try_except (send_command_try (request_of command args)) send_command_except st1.
Proof.
  unfold exchange_starts, send_command, bind, get_sock.
  destruct (sock (self st)) as [s|] eqn:Hs.
  - intros ->. reflexivity.
  - intros Hc. rewrite Hc. reflexivity.
Qed.

(** Without a connection [send_command] starts with [connect]. *)
Lemma send_command_absent command args st :
  sock (self st) = None ->
  send_command command args st =
  (connected <- connect ;;
   if negb connected
   then ret (failure "Failed to connect to ReClass.NET plugin")
   else try_except (send_command_try (request_of command args)) send_command_except) st.
Proof.
  intros Hs. unfold send_command. unfold bind at 1. unfold get_sock.
  rewrite Hs. reflexivity.
Qed.

Lemma grows_exchange command args :
  grows (try_except (send_command_try (request_of command args)) send_command_except).
Proof.
  apply grows_try_except; [apply grows_send_command_try|].
  apply grows_send_command_except.
Qed.

(** The first call [connect] makes is the creation of a socket. *)
Lemma connect_first_call st :
  exists a evs,
    trace (world (snd (connect st))) = trace (world st) ++ Ev NewSocket a :: evs.
Proof.
  rewrite connect_cases. cbv zeta.
  destruct (plan (world st)) as [|[d|msg] rest]; simpl.
  1,3: do 2 eexists; reflexivity.
  destruct rest as [|[d'|msg] rest']; simpl; rewrite <- !app_assoc; simpl;
    do 2 eexists; reflexivity.
Qed.

Lemma send_command_absent_first_call command args st :
  sock (self st) = None ->
  exists a evs,
    trace (world (snd (send_command command args st)))
    = trace (world st) ++ Ev NewSocket a :: evs.
Proof.
  intros Hs. rewrite (send_command_absent _ _ _ Hs).
  destruct (connect_first_call st) as [a [evs Hc]].
  unfold bind. destruct (connect st) as [[connected|e] st1]; simpl in Hc.
  - destruct connected; simpl.
    + destruct (grows_exchange command args st1) as [evs' Hx].
      exists a, (evs ++ evs'). rewrite Hx, Hc, <- app_assoc. reflexivity.
    + exists a, evs. exact Hc.
  - exists a, evs. exact Hc.
Qed.

(** Every [send_command] leaves a call in the trace: a state that did not
    change has seen no [send_command]. *)
Lemma send_command_records_a_call command args st :
  exists ev evs,
    trace (world (snd (send_command command args st)))
    = trace (world st) ++ ev :: evs.
Proof.
  destruct (sock (self st)) as [s|] eqn:Hs.
  - assert (Hstart : exchange_starts st st)
      by (unfold exchange_starts; rewrite Hs; reflexivity).
    rewrite (send_command_exchange _ _ _ _ Hstart).
    assert (Hfirst : exists a evs,
               trace (world (snd (send_command_try (request_of command args) st)))
               = trace (world st) ++ Ev (Sendall s (str_encode
                   (json_dumps (request_of command args) ++ newline))) a :: evs).
    { rewrite send_command_try_cases, Hs.
      pose proof (ask_trace (Sendall s (str_encode
                    (json_dumps (request_of command args) ++ newline))) (world st))
        as Hask.
      destruct (ask _ (world st)) as [[d|msg] w]; simpl in Hask.
      - destruct (recv_loop_trace s (plan w) [] (self st) (trace w) (sockets w))
          as [_ [_ [recvs [Ht _]]]].
        destruct (recv_loop s [] (self st) (plan w) (trace w) (sockets w))
          as [[response|e] st']; simpl in Ht.
        + exists (Done d), recvs.
          destruct (bytes_decode response); simpl;
            rewrite Ht, Hask, <- app_assoc; reflexivity.
        + exists (Done d), recvs. simpl.
          rewrite Ht, Hask, <- app_assoc. reflexivity.
      - exists (Fails msg), []. simpl. exact Hask. }
    destruct Hfirst as [a [evs Hfirst]].
    unfold try_except.
    destruct (send_command_try (request_of command args) st) as [[v|e] st'];
      simpl in Hfirst.
    + do 2 eexists. exact Hfirst.
    + destruct (send_command_except_cases e st') as [st3 [Hx [_ [evs' Hext]]]].
      rewrite Hx. simpl. rewrite Hext, Hfirst, <- app_assoc.
      do 2 eexists. reflexivity.
  - destruct (send_command_absent_first_call command args st Hs) as [a [evs H]].
    do 2 eexists. exact H.
Qed.

End Relay_facts.

Lemma written_recvs tr : forallb is_recv tr = true -> written tr = [].
Proof.
  induction tr as [|[c a] tr IH]; [reflexivity|].
  simpl. intros H. apply andb_prop in H. destruct H as [Hc Htr].
  destruct c; simpl in *; auto; discriminate.
Qed.


(** C1: when the write, the read or the decoding of the response raises,
    send_command disconnects and returns the failure value carrying the
    text of the exception; the connection is absent afterwards, and the
    next send_command begins with the first call of connect(), the
    creation of a socket. *)
Theorem send_command_failure_discards_connection :
  forall (RT : PyRuntime) (command : string) (args : option dict)
         (st st1 st2 : State) (e : exn),
    exchange_starts st st1 ->
    send_command_try (request_of command args) st1 = (Raise e, st2) ->
    exists st3 : State,
      send_command command args st
      = (Return (VDict [("success", VBool false); ("error", VStr (exn_str e))]), st3) /\
      sock (self st3) = None /\
      forall (command' : string) (args' : option dict),
      exists a evs,
        trace (world (snd (send_command command' args' st3)))
        = trace (world st3) ++ Ev NewSocket a :: evs.
Proof.
  intros RT command args st st1 st2 e Hstart Htry.
  rewrite (send_command_exchange _ _ _ _ Hstart).
  rewrite (try_except_raise _ _ _ _ _ Htry).
  destruct (send_command_except_cases e st2) as [st3 [Hx [Hs _]]].
  exists st3. repeat split; auto.
  intros command' args'. apply send_command_absent_first_call. exact Hs.
Qed.

(** A peer that answers the ping with a line that is not JSON: the
    client connects, writes, reads the line, fails to decode it, and is
    left without a connection. *)
Lemma send_command_failure_discards_connection_witness :
  let st := Sample.fresh [Done []; Done []; Done []; Done (Sample.line "pong")] in
  let st1 := snd (connect st) in
  let e := JSONDecodeError "Expecting value: line 1 column 1 (char 0)" in
  exchange_starts st st1 /\
  fst (@send_command_try Sample.runtime (request_of "ping" None) st1) = Raise e /\
  exists st3 : State,
    @send_command Sample.runtime "ping" None st
    = (Return (VDict [("success", VBool false); ("error", VStr (exn_str e))]), st3) /\
    sock (self st3) = None /\
    forall (command' : string) (args' : option dict),
    exists a evs,
      trace (world (snd (@send_command Sample.runtime command' args' st3)))
      = trace (world st3) ++ Ev NewSocket a :: evs.
Proof.
  intros st st1 e.
  assert (H1 : exchange_starts st st1) by (vm_compute; reflexivity).
  assert (H2 : @send_command_try Sample.runtime (request_of "ping" None) st1
               = (Raise e, snd (@send_command_try Sample.runtime (request_of "ping" None) st1)))
    by (vm_compute; reflexivity).
  split; [exact H1|]. split; [rewrite H2; reflexivity|].
  exact (send_command_failure_discards_connection
           Sample.runtime "ping" None st st1 _ e H1 H2).
Defined.

(** C3, as the code has it: without a connection and with a connect()
    that fails, send_command returns the failure value whose error is
    the text "Failed to connect to ReClass.NET plugin", in the state
    connect() left: the connection is absent and no sendall was called,
    so nothing was written to any transport. *)
Theorem connect_failure_returns_failure_value :
  forall (RT : PyRuntime) (command : string) (args : option dict) (st st1 : State),
    sock (self st) = None ->
    connect st = (Return false, st1) ->
    send_command command args st
    = (Return (VDict [("success", VBool false);
                      ("error", VStr "Failed to connect to ReClass.NET plugin")]), st1) /\
    sock (self st1) = None /\
    written (trace (world st1)) = written (trace (world st)) /\
    exists evs,
      trace (world st1) = trace (world st) ++ evs /\
      forallb (fun ev => negb (is_sendall ev)) evs = true.
Proof.
  intros RT command args st st1 Hs Hc.
  rewrite (send_command_absent _ _ _ Hs).
  rewrite (bind_return _ _ _ _ _ Hc). simpl.
  destruct (connect_failure_absent st) as [Hnone _].
  destruct (connect_trace st) as [evs [Ht Hf]]. rewrite Hc in Ht. simpl in Ht.
  repeat split.
  - apply (Hnone st1 Hc).
  - rewrite Ht, written_app, (written_no_sendall _ Hf). apply app_nil_r.
  - exists evs. split; assumption.
Qed.

Lemma connect_failure_returns_failure_value_witness :
  let st := Sample.fresh [Done []; Fails "Connection refused"] in
  let st1 := snd (connect st) in
  sock (self st) = None /\
  connect st = (Return false, st1) /\
  (@send_command Sample.runtime "get_status" None st
   = (Return (VDict [("success", VBool false);
                     ("error", VStr "Failed to connect to ReClass.NET plugin")]), st1) /\
   sock (self st1) = None /\
   written (trace (world st1)) = written (trace (world st)) /\
   exists evs,
     trace (world st1) = trace (world st) ++ evs /\
     forallb (fun ev => negb (is_sendall ev)) evs = true).
Proof.
  intros st st1.
  assert (H1 : sock (self st) = None) by reflexivity.
  assert (H2 : connect st = (Return false, st1)) by (vm_compute; reflexivity).
  split; [exact H1|]. split; [exact H2|].
  exact (connect_failure_returns_failure_value Sample.runtime "get_status" None st st1 H1 H2).
Defined.

(** C3 as the claim words it fails on the message: a refused connection
    gives the error text "Failed to connect to ReClass.NET plugin", not
    "connection failed". *)
Lemma connection_failed_text_differs :
  let st := Sample.fresh [Done []; Fails "Connection refused"] in
  sock (self st) = None /\
  fst (connect st) = Return false /\
  fst (@send_command Sample.runtime "ping" None st)
  = Return (VDict [("success", VBool false);
                   ("error", VStr "Failed to connect to ReClass.NET plugin")]) /\
  fst (@send_command Sample.runtime "ping" None st)
  <> Return (VDict [("success", VBool false); ("error", VStr "connection failed")]).
Proof.
  cbv zeta. repeat split; try (vm_compute; reflexivity).
  vm_compute. discriminate.
Qed.

(** C4: in an exchange that goes through, send_command makes exactly one
    sendall, which completes, then only recv calls; the bytes written are
    the UTF-8 bytes of json.dumps of the object
    {"command": command, "args": args or {}} followed by the single byte
    0x0a, and send_command returns the decoded response. *)
Theorem send_command_writes_one_json_line :
  forall (RT : PyRuntime) (command : string) (args : option dict)
         (st st1 st2 : State) (v : value),
    exchange_starts st st1 ->
    send_command_try (request_of command args) st1 = (Return v, st2) ->
    let request := VDict [("command", VStr command); ("args", VDict (or_empty args))] in
    let line := str_encode (json_dumps request) ++ [x0a] in
    send_command command args st = (Return v, st2) /\
    (exists s d recvs,
       sock (self st1) = Some s /\
       trace (world st2) = trace (world st1) ++ Ev (Sendall s line) (Done d) :: recvs /\
       forallb is_recv recvs = true) /\
    written (trace (world st2)) = written (trace (world st)) ++ line.
Proof.
  intros RT command args st st1 st2 v Hstart Htry request line.
  assert (Hsend : exists s d recvs,
             sock (self st1) = Some s /\
             trace (world st2)
             = trace (world st1) ++ Ev (Sendall s line) (Done d) :: recvs /\
             forallb is_recv recvs = true).
  { rewrite send_command_try_cases in Htry.
    destruct (sock (self st1)) as [s|]; [|discriminate].
    pose proof (ask_trace (Sendall s (str_encode (json_dumps (request_of command args)
                                                  ++ newline))) (world st1)) as Hask.
    destruct (ask _ (world st1)) as [[d|msg] w] eqn:Ea; [|discriminate].
    simpl in Hask.
    destruct (recv_loop_trace s (plan w) [] (self st1) (trace w) (sockets w))
      as [_ [_ [recvs [Ht Hr]]]].
    destruct (recv_loop s [] (self st1) (plan w) (trace w) (sockets w))
      as [[response|e] st'] eqn:El; [|discriminate].
    simpl in Ht.
    assert (st2 = st').
    { destruct (bytes_decode response); [|discriminate].
      inversion Htry; reflexivity. }
    subst st'. exists s, d, recvs. repeat split; auto.
    rewrite Ht, Hask, <- app_assoc.
    rewrite str_encode_app, str_encode_newline. reflexivity. }
  split; [|split; [exact Hsend|]].
  - rewrite (send_command_exchange _ _ _ _ Hstart).
    apply try_except_return. exact Htry.
  - destruct Hsend as [s [d [recvs [_ [Ht Hr]]]]].
    assert (Hw : written (trace (world st1)) = written (trace (world st))).
    { unfold exchange_starts in Hstart.
      destruct (sock (self st)); [subst; reflexivity|].
      destruct (connect_trace st) as [evs [Hc Hf]].
      rewrite Hstart in Hc. simpl in Hc.
      rewrite Hc, written_app, (written_no_sendall _ Hf). apply app_nil_r. }
    rewrite Ht, written_app, Hw. simpl.
    rewrite (written_recvs _ Hr), app_nil_r. reflexivity.
Qed.

Lemma send_command_writes_one_json_line_witness :
  let st := Sample.connected
              [Done []; Done (Sample.line (Sample.dumps (VDict [("success", VBool true)])))] in
  let args := Some [("address", VStr "0x1000"); ("size", VStr "16")] in
  let v := VDict [("success", VBool true)] in
  let st2 := snd (@send_command_try Sample.runtime (request_of "read_memory" args) st) in
  let line := str_encode (Sample.dumps
                 (VDict [("command", VStr "read_memory");
                         ("args", VDict [("address", VStr "0x1000"); ("size", VStr "16")])]))
              ++ [x0a] in
  exchange_starts st st /\
  @send_command_try Sample.runtime (request_of "read_memory" args) st = (Return v, st2) /\
  (@send_command Sample.runtime "read_memory" args st = (Return v, st2) /\
   (exists s d recvs,
      sock (self st) = Some s /\
      trace (world st2) = trace (world st) ++ Ev (Sendall s line) (Done d) :: recvs /\
      forallb is_recv recvs = true) /\
   written (trace (world st2)) = written (trace (world st)) ++ line).
Proof.
  intros st args v st2 line.
  assert (H1 : exchange_starts st st) by reflexivity.
  assert (H2 : @send_command_try Sample.runtime (request_of "read_memory" args) st
               = (Return v, st2)) by (vm_compute; reflexivity).
  split; [exact H1|]. split; [exact H2|].
  exact (send_command_writes_one_json_line
           Sample.runtime "read_memory" args st st st2 v H1 H2).
Defined.






(** ** Tool dispatch *)

Example tool_names_sixteen : length tool_names = 16%nat /\ NoDup tool_names.
Proof.
  split; [reflexivity|].
  unfold tool_names, list_tools; simpl.
  repeat (constructor; [simpl; intros H; repeat (destruct H as [H|H]; [discriminate H|]); exact H|]).
  constructor.
Qed.

Lemma contains_lookup d key : contains d key = match lookup d key with Some _ => true | None => false end.
Proof.
  induction d as [|[k v] d IH]; [reflexivity|].
  simpl. destruct (k =? key); [reflexivity|exact IH].
Qed.

Lemma getitem_lookup d key v : lookup d key = Some v -> getitem d key = Return v.
Proof. intros H. unfold getitem. rewrite H. reflexivity. Qed.

Lemma bind_lift_return {A B} (a : A) (k : A -> M B) st :
  bind (lift (Return a)) k st = k a st.
Proof. reflexivity. Qed.

(** C8: CreateClass relays create_class with the args mapping
    {"name": v} and no other key when the arguments carry no address,
    and with {"name": v, "address": a} when they carry the address a. *)
Theorem create_class_args :
  forall (RT : PyRuntime) (arguments : dict) (st : State) (v : value),
    lookup arguments "name" = Some v ->
    call_tool "CreateClass" arguments st
    = (result <- send_command "create_class"
                   (Some (match lookup arguments "address" with
                          | None => [("name", v)]
                          | Some a => [("name", v); ("address", a)]
                          end)) ;;
       ret (dumped result)) st.
Proof.
  intros RT arguments st v Hname.
  unfold call_tool. cbn [String.eqb Ascii.eqb Bool.eqb].
  rewrite (getitem_lookup _ _ _ Hname), bind_lift_return.
  rewrite contains_lookup. unfold getitem.
  destruct (lookup arguments "address") as [a|]; reflexivity.
Qed.

Lemma create_class_args_witness :
  let arguments := [("name", VStr "Player")] in
  let st := Sample.connected [] in
  lookup arguments "name" = Some (VStr "Player") /\
  @call_tool Sample.runtime "CreateClass" arguments st
  = (result <- @send_command Sample.runtime "create_class"
                 (Some (match lookup arguments "address" with
                        | None => [("name", VStr "Player")]
                        | Some a => [("name", VStr "Player"); ("address", a)]
                        end)) ;;
     ret (@dumped Sample.runtime result)) st.
Proof.
  intros arguments st.
  assert (H : lookup arguments "name" = Some (VStr "Player")) by reflexivity.
  split; [exact H|].
  exact (create_class_args Sample.runtime arguments st (VStr "Player") H).
Defined.

(** C10: a name outside the catalogue gets the single text item
    "Unknown tool: <name>", and the call leaves the client and the world
    as they were: the connection is unchanged and no call was recorded,
    where any send_command would have recorded one
    ([send_command_records_a_call]). *)
Theorem unknown_tool :
  forall (RT : PyRuntime) (name : string) (arguments : dict) (st : State),
    ~ In name tool_names ->
    call_tool name arguments st
    = (Return [mkTextContent "text" ("Unknown tool: " ++ name)], st).
Proof.
  intros RT name arguments st Hn.
  unfold tool_names, list_tools in Hn. simpl in Hn.
  unfold call_tool.
  repeat match goal with
         | |- context [String.eqb name ?s] =>
             destruct (String.eqb_spec name s) as [->|_];
             [exfalso; apply Hn; tauto|]
         end.
  reflexivity.
Qed.

Lemma unknown_tool_witness :
  let st := Sample.connected [Done []; Done (Sample.line "{}")] in
  ~ In "DeleteClass" tool_names /\
  @call_tool Sample.runtime "DeleteClass" [("name", VStr "Player")] st
  = (Return [mkTextContent "text" ("Unknown tool: " ++ "DeleteClass")], st).
Proof.
  intros st.
  assert (H : ~ In "DeleteClass" tool_names).
  { unfold tool_names, list_tools. simpl. intros H.
    repeat (destruct H as [H|H]; [discriminate H|]). exact H. }
  split; [exact H|].
  exact (unknown_tool Sample.runtime "DeleteClass" [("name", VStr "Player")] st H).
Defined.

(** C6, as the code has it: when the ping comes back as a JSON object,
    IsConnected gives "Connected to ReClass.NET plugin" if the success
    field passes Python's truth test (absent counts as false), and
    otherwise "Not connected: " followed by str() of the error field, or
    by "Unknown error" when the object has no error key; should that
    str() raise, the exception is the outcome of the call. *)
Theorem is_connected_output :
  forall (RT : PyRuntime) (arguments : dict) (st st' : State) (d : dict),
    send_command "ping" None st = (Return (VDict d), st') ->
    call_tool "IsConnected" arguments st
    = (if truthy (match lookup d "success" with Some x => x | None => VNone end)
       then Return [mkTextContent "text" "Connected to ReClass.NET plugin"]
       else match py_str (match lookup d "error" with
                          | Some x => x
                          | None => VStr "Unknown error"
                          end) with
            | Return error_text =>
                Return [mkTextContent "text" ("Not connected: " ++ error_text)]
            | Raise e => Raise e
            end,
       st').
Proof.
  intros RT arguments st st' d Hping.
  unfold call_tool. cbn [String.eqb Ascii.eqb Bool.eqb].
  rewrite (bind_return _ _ _ _ _ Hping).
  unfold get. rewrite bind_lift_return.
  destruct (truthy _); [reflexivity|].
  rewrite bind_lift_return. unfold bind, lift.
  destruct (py_str _); reflexivity.
Qed.

Lemma is_connected_output_witness :
  let d := [("success", VBool false); ("error", VStr "No process attached")] in
  let st := Sample.connected [Done []; Done (Sample.line (Sample.dumps (VDict d)))] in
  let st' := snd (@send_command Sample.runtime "ping" None st) in
  @send_command Sample.runtime "ping" None st = (Return (VDict d), st') /\
  @call_tool Sample.runtime "IsConnected" [] st
  = (if truthy (match lookup d "success" with Some x => x | None => VNone end)
     then Return [mkTextContent "text" "Connected to ReClass.NET plugin"]
     else match @py_str Sample.runtime
                  (match lookup d "error" with
                   | Some x => x
                   | None => VStr "Unknown error"
                   end) with
          | Return error_text =>
              Return [mkTextContent "text" ("Not connected: " ++ error_text)]
          | Raise e => Raise e
          end,
     st').
Proof.
  intros d st st'.
  assert (H : @send_command Sample.runtime "ping" None st = (Return (VDict d), st'))
    by (vm_compute; reflexivity).
  split; [exact H|].
  exact (is_connected_output Sample.runtime [] st st' d H).
Defined.

(** C6 as the claim words it fails in two ways. A ping answered by the
    JSON array [] has no success field that is true, yet no failure text
    is rendered: the call raises AttributeError. A ping answered by
    {"success": "yes"} has a success field that is not true, yet the
    success text is rendered, because the test is Python's truth test. *)
Lemma is_connected_beyond_true_and_false :
  let st_array := Sample.connected [Done []; Done (Sample.line (Sample.dumps (VList [])))] in
  let yes := VDict [("success", VStr "yes")] in
  let st_yes := Sample.connected [Done []; Done (Sample.line (Sample.dumps yes))] in
  (fst (@send_command Sample.runtime "ping" None st_array) = Return (VList []) /\
   fst (@call_tool Sample.runtime "IsConnected" [] st_array)
   = Raise (AttributeError
              (squote ++ "list" ++ squote ++ " object has no attribute "
               ++ squote ++ "get" ++ squote))) /\
  (fst (@send_command Sample.runtime "ping" None st_yes) = Return yes /\
   fst (@call_tool Sample.runtime "IsConnected" [] st_yes)
   = Return [mkTextContent "text" "Connected to ReClass.NET plugin"] /\
   fst (@call_tool Sample.runtime "IsConnected" [] st_yes)
   <> Return [mkTextContent "text" "Not connected: Unknown error"]).
Proof.
  cbv zeta. repeat split; try (vm_compute; reflexivity).
  vm_compute. discriminate.
Qed.

(** ReadMemory turns the size into its string: the spec's example. *)
Lemma read_memory_coerces_size (RT : PyRuntime) arguments st address size size_text :
  lookup arguments "address" = Some address ->
  lookup arguments "size" = Some size ->
  py_str size = Return size_text ->
  call_tool "ReadMemory" arguments st
  = (result <- send_command "read_memory"
                 (Some [("address", address); ("size", VStr size_text)]) ;;
     ret (dumped result)) st.
Proof.
  intros Ha Hs Ht. unfold call_tool. cbn [String.eqb Ascii.eqb Bool.eqb].
  rewrite (getitem_lookup _ _ _ Ha), bind_lift_return.
  rewrite (getitem_lookup _ _ _ Hs), bind_lift_return.
  rewrite Ht, bind_lift_return. reflexivity.
Qed.

Example read_memory_size_16 (RT : PyRuntime) st :
  call_tool "ReadMemory" [("address", VStr "0x1000"); ("size", VInt 16)] st
  = (result <- send_command "read_memory"
                 (Some [("address", VStr "0x1000"); ("size", VStr "16")]) ;;
     ret (dumped result)) st.
Proof.
  apply (read_memory_coerces_size RT _ st (VStr "0x1000") (VInt 16) "16");
    vm_compute; reflexivity.
Qed.

(** The three tools that take a node index hand it on as it came. *)
Lemma node_index_passed_through (RT : PyRuntime) arguments st class_id node_index :
  lookup arguments "class_id" = Some class_id ->
  lookup arguments "node_index" = Some node_index ->
  (forall v, lookup arguments "name" = Some v ->
     call_tool "RenameNode" arguments st
     = (result <- send_command "rename_node"
                    (Some [("class_id", class_id); ("node_index", node_index);
                           ("name", v)]) ;;
        ret (dumped result)) st) /\
  (forall v, lookup arguments "comment" = Some v ->
     call_tool "SetComment" arguments st
     = (result <- send_command "set_comment"
                    (Some [("class_id", class_id); ("node_index", node_index);
                           ("comment", v)]) ;;
        ret (dumped result)) st) /\
  (forall v, lookup arguments "type" = Some v ->
     call_tool "ChangeNodeType" arguments st
     = (result <- send_command "change_node_type"
                    (Some [("class_id", class_id); ("node_index", node_index);
                           ("type", v)]) ;;
        ret (dumped result)) st).
Proof.
  intros Hc Hi.
  repeat split; intros v Hv; unfold call_tool; cbn [String.eqb Ascii.eqb Bool.eqb];
    rewrite (getitem_lookup _ _ _ Hc), bind_lift_return;
    rewrite (getitem_lookup _ _ _ Hi), bind_lift_return;
    rewrite (getitem_lookup _ _ _ Hv), bind_lift_return; reflexivity.
Qed.

(** C2 at the failing input: RenameNode called with the integer index 2
    relays rename_node with an args mapping whose node_index is the
    integer 2, not the string "2": the mapping of the request is not
    string-valued. *)
Theorem rename_node_sends_integer_index :
  forall (RT : PyRuntime) (st : State),
    let arguments :=
      [("class_id", VStr "Player"); ("node_index", VInt 2); ("name", VStr "health")] in
    let args :=
      [("class_id", VStr "Player"); ("node_index", VInt 2); ("name", VStr "health")] in
    call_tool "RenameNode" arguments st
    = (result <- send_command "rename_node" (Some args) ;;
       ret (dumped result)) st /\
    request_of "rename_node" (Some args)
    = VDict [("command", VStr "rename_node"); ("args", VDict args)] /\
    lookup args "node_index" = Some (VInt 2) /\
    string_valued args = false.
Proof.
  intros RT st arguments args. split.
  - apply (node_index_passed_through RT arguments st (VStr "Player") (VInt 2));
      reflexivity.
  - split; [reflexivity|]. split; reflexivity.
Qed.

(** The line RenameNode puts on the wire at that input, with the sample
    encoder: the index is written as the JSON number 2. *)
Example rename_node_wire :
  let arguments :=
    [("class_id", VStr "Player"); ("node_index", VInt 2); ("name", VStr "health")] in
  let st := Sample.connected [Done []; Done (Sample.line "{}")] in
  let q := Sample.quoted in
  string_of_list_byte
    (written (trace (world (snd (@call_tool Sample.runtime "RenameNode" arguments st)))))
  = ("{" ++ q "command" ++ ": " ++ q "rename_node" ++ ", " ++ q "args" ++ ": {"
     ++ q "class_id" ++ ": " ++ q "Player" ++ ", "
     ++ q "node_index" ++ ": 2, "
     ++ q "name" ++ ": " ++ q "health" ++ "}}" ++ newline)%string.
Proof. vm_compute. reflexivity. Qed.

(** The same for ReadMemory: the size is written as the JSON string. *)
Example read_memory_wire :
  let arguments := [("address", VStr "0x1000"); ("size", VInt 16)] in
  let st := Sample.connected [Done []; Done (Sample.line "{}")] in
  let q := Sample.quoted in
  string_of_list_byte
    (written (trace (world (snd (@call_tool Sample.runtime "ReadMemory" arguments st)))))
  = ("{" ++ q "command" ++ ": " ++ q "read_memory" ++ ", " ++ q "args" ++ ": {"
     ++ q "address" ++ ": " ++ q "0x1000" ++ ", "
     ++ q "size" ++ ": " ++ q "16" ++ "}}" ++ newline)%string.
Proof. vm_compute. reflexivity. Qed.

(** * Further properties *)

(** ** Counting the calls of the relay *)

Lemma count_calls_app p evs1 evs2 :
  count_calls p (evs1 ++ evs2) = count_calls p evs1 + count_calls p evs2.
Proof. unfold count_calls. rewrite filter_app. apply length_app. Qed.

Lemma count_calls_recvs p evs :
  (forall s bufsize, p (Recv s bufsize) = false) ->
  forallb is_recv evs = true ->
  count_calls p evs = 0.
Proof.
  intros Hp. induction evs as [|[c a] evs IH]; [reflexivity|].
  simpl. intros H. apply andb_prop in H. destruct H as [Hc Hr].
  unfold count_calls in *. simpl.
  destruct c; try discriminate. rewrite Hp. apply IH. exact Hr.
Qed.

Lemma connect_events st :
  exists evs,
    trace (world (snd (connect st))) = trace (world st) ++ evs /\
    count_calls creates_socket evs = 1 /\
    count_calls connects evs <= 1 /\
    count_calls sends evs = 0 /\
    count_calls closes evs = 0.
Proof.
  rewrite connect_cases. cbv zeta.
  destruct (plan (world st)) as [|[d|msg] rest]; simpl.
  1,3: eexists; split; [reflexivity|]; cbv; repeat split; lia.
  destruct rest as [|[d'|msg] rest']; simpl; rewrite <- !app_assoc; simpl;
    (eexists; split; [reflexivity|]; cbv; repeat split; lia).
Qed.

Section Relay_calls.
Context `{RT : PyRuntime}.

Lemma send_command_try_events request st :
  exists evs,
    trace (world (snd (send_command_try request st))) = trace (world st) ++ evs /\
    count_calls creates_socket evs = 0 /\
    count_calls connects evs = 0 /\
    count_calls sends evs <= 1 /\
    count_calls closes evs = 0.
Proof.
  rewrite send_command_try_cases.
  destruct (sock (self st)) as [s|].
  - pose proof (ask_trace (Sendall s (str_encode (json_dumps request ++ newline)))
                  (world st)) as Hask.
    destruct (ask _ (world st)) as [[d|msg] w]; simpl in Hask.
    + destruct (recv_loop_trace s (plan w) [] (self st) (trace w) (sockets w))
        as [_ [_ [recvs [Ht Hr]]]].
      assert (Hev : forall p, (forall s' b, p (Recv s' b) = false) ->
                count_calls p (Ev (Sendall s (str_encode (json_dumps request ++ newline)))
                                 (Done d) :: recvs)
                = count_calls p [Ev (Sendall s (str_encode (json_dumps request ++ newline)))
                                   (Done d)]).
      { intros p Hp.
        change (Ev (Sendall s (str_encode (json_dumps request ++ newline))) (Done d) :: recvs)
          with ([Ev (Sendall s (str_encode (json_dumps request ++ newline))) (Done d)]
                ++ recvs).
        rewrite count_calls_app, (count_calls_recvs p recvs Hp Hr). lia. }
      exists (Ev (Sendall s (str_encode (json_dumps request ++ newline))) (Done d) :: recvs).
      split.
      * destruct (recv_loop s [] (self st) (plan w) (trace w) (sockets w))
          as [[response|e] st']; simpl in Ht |- *.
        -- destruct (bytes_decode response); simpl;
             rewrite Ht, Hask, <- app_assoc; reflexivity.
        -- rewrite Ht, Hask, <- app_assoc. reflexivity.
      * rewrite !Hev by reflexivity. cbv. repeat split; lia.
    + eexists. split; [exact Hask|]. cbv. repeat split; lia.
  - exists []. split; [symmetry; apply app_nil_r|]. cbv. repeat split; lia.
Qed.

Lemma send_command_except_events e st :
  exists st' evs,
    send_command_except e st = (Return (failure (exn_str e)), st') /\
    sock (self st') = None /\
    trace (world st') = trace (world st) ++ evs /\
    count_calls creates_socket evs = 0 /\
    count_calls connects evs = 0 /\
    count_calls sends evs = 0 /\
    count_calls closes evs <= 1.
Proof.
  unfold send_command_except, bind. rewrite disconnect_cases. cbv zeta.
  destruct (sock (self st)) as [s|] eqn:Hs.
  - do 2 eexists. split; [reflexivity|]. split; [reflexivity|].
    split; [simpl; apply ask_trace|]. cbv. repeat split; lia.
  - exists st, []. split; [reflexivity|]. split; [exact Hs|].
    split; [symmetry; apply app_nil_r|]. cbv. repeat split; lia.
Qed.

Lemma exchange_events request st :
  exists v st' evs,
    try_except (send_command_try request) send_command_except st = (Return v, st') /\
    trace (world st') = trace (world st) ++ evs /\
    count_calls creates_socket evs = 0 /\
    count_calls connects evs = 0 /\
    count_calls sends evs <= 1 /\
    count_calls closes evs <= 1.
Proof.
  unfold try_except.
  destruct (send_command_try_events request st) as [evs [Ht [H1 [H2 [H3 H4]]]]].
  destruct (send_command_try request st) as [[v|e] st1]; simpl in Ht.
  - exists v, st1, evs. repeat split; auto. lia.
  - destruct (send_command_except_events e st1)
      as [st' [evs' [Hx [_ [Ht' [H1' [H2' [H3' H4']]]]]]]].
    exists (failure (exn_str e)), st', (evs ++ evs').
    split; [exact Hx|]. split; [rewrite Ht', Ht; symmetry; apply app_assoc|].
    rewrite !count_calls_app. repeat split; lia.
Qed.

End Relay_calls.

(** The outcome of [send_command]: a value, and the calls it cost. *)
Lemma send_command_outcome (RT : PyRuntime) command args st :
  exists (v : value) (st' : State) (evs : list event),
    send_command command args st = (Return v, st') /\
    trace (world st') = trace (world st) ++ evs /\
    count_calls creates_socket evs <= 1 /\
    count_calls connects evs <= 1 /\
    count_calls sends evs <= 1 /\
    count_calls closes evs <= 1.
Proof.
  destruct (sock (self st)) as [s|] eqn:Hs.
  - assert (Hstart : exchange_starts st st)
      by (unfold exchange_starts; rewrite Hs; reflexivity).
    rewrite (send_command_exchange _ _ _ _ Hstart).
    destruct (exchange_events (request_of command args) st)
      as [v [st' [evs [H [Ht [H1 [H2 [H3 H4]]]]]]]].
    exists v, st', evs. repeat split; auto; lia.
  - rewrite (send_command_absent _ _ _ Hs). unfold bind.
    destruct (connect_events st) as [evs [Ht [H1 [H2 [H3 H4]]]]].
    pose proof (connect_cases st) as Hc. cbv zeta in Hc.
    destruct (connect st) as [[[|]|e] st1]; simpl in Ht.
    + destruct (exchange_events (request_of command args) st1)
        as [v [st' [evs' [H [Ht' [H1' [H2' [H3' H4']]]]]]]].
      exists v, st', (evs ++ evs'). split; [exact H|].
      split; [rewrite Ht', Ht; symmetry; apply app_assoc|].
      rewrite !count_calls_app. repeat split; lia.
    + do 2 eexists. exists evs. split; [reflexivity|]. repeat split; auto; lia.
    + exfalso. destruct (plan (world st)) as [|[d|msg] rest]; try discriminate.
      destruct rest as [|[d'|msg] rest']; discriminate.
Qed.

(** send_command always hands back a value; no exception of the socket,
    of the decoding or of the parsing gets out of it. *)
Theorem send_command_never_raises :
  forall (RT : PyRuntime) (command : string) (args : option dict) (st : State),
  exists (v : value) (st' : State),
    send_command command args st = (Return v, st').
Proof.
  intros RT command args st.
  destruct (send_command_outcome RT command args st) as [v [st' [_ [H _]]]].
  exists v, st'. exact H.
Qed.

(** One send_command makes one attempt: at most one socket is created,
    one connection tried, one request written and one close called; there
    is no retry. *)
Theorem send_command_single_attempt :
  forall (RT : PyRuntime) (command : string) (args : option dict) (st : State),
  exists evs : list event,
    trace (world (snd (send_command command args st))) = trace (world st) ++ evs /\
    single_attempt evs.
Proof.
  intros RT command args st.
  destruct (send_command_outcome RT command args st)
    as [v [st' [evs [H [Ht Hcount]]]]].
  exists evs. rewrite H. split; [exact Ht|]. exact Hcount.
Qed.

(** ** Keeping and replacing the connection *)

Section Relay_connection.
Context `{RT : PyRuntime}.


(** The body of the [try] leaves the client object alone. *)
Lemma send_command_try_self request st :
  self (snd (send_command_try request st)) = self st.
Proof.
  rewrite send_command_try_cases.
  destruct (sock (self st)) as [s|]; [|reflexivity].
  destruct (ask _ (world st)) as [[d|msg] w]; [|reflexivity].
  destruct (recv_loop_trace s (plan w) [] (self st) (trace w) (sockets w))
    as [Hself _].
  destruct (recv_loop s [] (self st) (plan w) (trace w) (sockets w))
    as [[response|e] st']; simpl in Hself |- *; [|exact Hself].
  destruct (bytes_decode response); exact Hself.
Qed.

End Relay_connection.





(** connect never closes anything: called on a client that holds a
    socket, it drops that socket unclosed, and the client ends up with a
    new socket or with none. *)
Theorem connect_drops_held_socket_unclosed :
  forall (st : State) (s : socket),
    sock (self st) = Some s ->
    holds_created_socket st ->
    (exists evs,
       trace (world (snd (connect st))) = trace (world st) ++ evs /\
       count_calls closes evs = 0) /\
    sock (self (snd (connect st))) <> Some s.
Proof.
  intros st s Hs Hheld. split.
  - destruct (connect_events st) as [evs [Ht [_ [_ [_ Hc]]]]].
    exists evs. split; assumption.
  - unfold holds_created_socket in Hheld. rewrite Hs in Hheld.
    rewrite connect_cases. cbv zeta.
    destruct (plan (world st)) as [|[d|msg] rest]; simpl; try discriminate.
    destruct rest as [|[d'|msg] rest']; simpl; try discriminate.
    intros H. inversion H. lia.
Qed.

Lemma connect_drops_held_socket_unclosed_witness :
  let st := Sample.connected [Done []; Done []] in
  sock (self st) = Some 0%nat /\
  holds_created_socket st /\
  ((exists evs,
      trace (world (snd (connect st))) = trace (world st) ++ evs /\
      count_calls closes evs = 0) /\
   sock (self (snd (connect st))) <> Some 0%nat).
Proof.
  intros st.
  assert (H1 : sock (self st) = Some 0%nat) by reflexivity.
  assert (H2 : holds_created_socket st) by (unfold holds_created_socket; simpl; lia).
  split; [exact H1|]. split; [exact H2|].
  exact (connect_drops_held_socket_unclosed st 0%nat H1 H2).
Defined.

(** ** Failures in the middle of an exchange *)






(** ** The dispatcher and the catalogue *)

Ltac tool_cases Hin :=
  unfold list_tools in Hin; simpl in Hin;
  repeat (destruct Hin as [<-|Hin]); [..|contradiction Hin].

Section Dispatch_facts.
Context `{RT : PyRuntime}.

Lemma bind_getitem {B} d key (f : value -> M B) st :
  bind (lift (getitem d key)) f st =
  match lookup d key with
  | Some v => f v st
  | None => (Raise (KeyError key), st)
  end.
Proof. unfold bind, lift, getitem. destruct (lookup d key); reflexivity. Qed.

Lemma bind_ret {A B} (a : A) (f : A -> M B) st : bind (ret a) f st = f a st.
Proof. reflexivity. Qed.

Lemma bind_ext {A B} (m : M A) (f g : A -> M B) st :
  (forall a st', f a st' = g a st') -> bind m f st = bind m g st.
Proof.
  intros H. unfold bind. destruct (m st) as [[a|e] st']; [apply H|reflexivity].
Qed.

Lemma bind_lift_snd {A B} (m : M A) (k : A -> outcome B) st :
  snd (bind m (fun a => lift (k a)) st) = snd (m st).
Proof. unfold bind, lift. destruct (m st) as [[a|e] st']; reflexivity. Qed.

(** The optional argument of CreateClass and AddNode. *)
Lemma optional_argument d key (args : dict) :
  (if contains d key
   then v <- lift (getitem d key) ;; ret (setitem args key v)
   else ret args)
  = ret (match lookup d key with
         | Some v => setitem args key v
         | None => args
         end).
Proof.
  rewrite contains_lookup. unfold getitem.
  destruct (lookup d key); reflexivity.
Qed.

Lemma lookup_value_in (d : dict) key v : lookup d key = Some v -> In v (map snd d).
Proof.
  induction d as [|[k x] d IH]; [discriminate|].
  simpl. destruct (k =? key).
  - intros H. inversion H. left. reflexivity.
  - intros H. right. apply IH. exact H.
Qed.

Lemma required_present_or_missing (d : dict) (keys : list string) :
  (forall key, In key keys -> lookup d key <> None) \/
  (exists key, In key keys /\ lookup d key = None).
Proof.
  induction keys as [|k keys IH].
  - left. intros key [].
  - destruct (lookup d k) eqn:Hk.
    + destruct IH as [IH|[key [Hin Hn]]].
      * left. intros key [<-|Hin]; [congruence|apply IH; exact Hin].
      * right. exists key. split; [right; exact Hin|exact Hn].
    + right. exists k. split; [left; reflexivity|exact Hk].
Qed.

(** The last branch of [call_tool]. *)
Lemma call_tool_fallback name arguments st :
  ~ In name tool_names ->
  call_tool name arguments st
  = (Return [mkTextContent "text" ("Unknown tool: " ++ name)], st).
Proof.
  intros Hn. unfold tool_names, list_tools in Hn. simpl in Hn.
  unfold call_tool.
  repeat match goal with
         | |- context [String.eqb name ?s] =>
             destruct (String.eqb_spec name s) as [->|_];
             [exfalso; apply Hn; tauto|]
         end.
  reflexivity.
Qed.

(** A required argument that is missing stops the call before the relay
    is asked anything. *)
Lemma call_tool_missing_key t arguments st :
  In t list_tools ->
  (exists key, In key (required (inputSchema t)) /\ lookup arguments key = None) ->
  exists key,
    In key (required (inputSchema t)) /\
    lookup arguments key = None /\
    call_tool (name t) arguments st = (Raise (KeyError key), st).
Proof.
  intros Hin [key0 [Hreq Hnone]].
  tool_cases Hin; simpl in Hreq; try contradiction;
    unfold call_tool; cbn [name String.eqb Ascii.eqb Bool.eqb];
    repeat (rewrite bind_getitem;
            match goal with
            | |- context [match lookup arguments ?k with _ => _ end] =>
                destruct (lookup arguments k) as [?v|] eqn:?E;
                [cbv beta
                |exists k; split; [simpl; tauto|split; [assumption|reflexivity]]]
            end).
  all: exfalso; repeat (destruct Hreq as [<-|Hreq]; [congruence|]); exact Hreq.
Qed.

(** With its required arguments, and a size that prints when the tool is
    ReadMemory, a declared tool is one [send_command], under the command
    name of the table, followed by a rendering that never touches the
    world. Every value of the args it sends is a value of the arguments
    or a string made from one. *)
Lemma call_tool_relays t arguments st :
  In t list_tools ->
  (forall key, In key (required (inputSchema t)) -> lookup arguments key <> None) ->
  size_prints t arguments ->
  exists cmd args' (k : value -> outcome (list TextContent)),
    In (name t, cmd) tool_commands /\
    call_tool (name t) arguments st
    = (result <- send_command cmd args' ;; lift (k result)) st /\
    (name t <> "IsConnected" -> forall r, k r = Return (dumped r)) /\
    Forall (fun kv => is_str (snd kv) = true
                      \/ In (snd kv) (map snd arguments))
      (or_empty args').
Proof.
  intros Hin Hreq Hsize.
  tool_cases Hin; simpl in Hreq; unfold size_prints in Hsize; cbn [name] in Hsize;
    [ exists "ping", None,
        (fun result =>
           match get result "success" VNone with
           | Raise e => Raise e
           | Return success =>
               if truthy success
               then Return [mkTextContent "text" "Connected to ReClass.NET plugin"]
               else match get result "error" (VStr "Unknown error") with
                    | Raise e => Raise e
                    | Return error =>
                        match py_str error with
                        | Raise e => Raise e
                        | Return error_text =>
                            Return [mkTextContent "text"
                                      ("Not connected: " ++ error_text)]
                        end
                    end
           end);
      split; [simpl; tauto|]; split;
      [ unfold call_tool; cbn [name String.eqb Ascii.eqb Bool.eqb];
        apply bind_ext; intros r st';
        unfold bind, lift;
        destruct (get r "success" VNone) as [success|e]; [|reflexivity];
        destruct (truthy success); [reflexivity|];
        destruct (get r "error" (VStr "Unknown error")) as [error|e]; [|reflexivity];
        destruct (py_str error); reflexivity
      | split; [intros H; exfalso; apply H; reflexivity | cbn [or_empty]; constructor] ]
    | unfold call_tool; cbn [name String.eqb Ascii.eqb Bool.eqb];
      repeat (rewrite bind_getitem;
              match goal with
              | |- context [match lookup arguments ?k with _ => _ end] =>
                  destruct (lookup arguments k) as [?v|] eqn:?E;
                  [cbv beta|exfalso; apply (Hreq k); [simpl; tauto|assumption]]
              end);
      try match goal with
          | |- context [py_str ?x] =>
              let text := fresh "text" in
              let Ht := fresh "Ht" in
              destruct (Hsize eq_refl x eq_refl) as [text Ht];
              rewrite Ht, bind_lift_return
          end;
      rewrite ?optional_argument, ?bind_ret;
      repeat match goal with
             | |- context [match lookup arguments ?k with _ => _ end] =>
                 destruct (lookup arguments k) as [?v|] eqn:?E
             end;
      cbn [setitem String.eqb Ascii.eqb Bool.eqb];
      match goal with
      | |- context [send_command ?cmd ?args'] =>
          exists cmd, args', (fun r => Return (dumped r))
      end;
      (split; [simpl; tauto|]); (split; [reflexivity|]);
      (split; [intros _ r; reflexivity|]);
      cbn [or_empty];
      repeat (constructor;
              [first [ left; reflexivity
                     | right; cbn [snd]; eapply lookup_value_in; eassumption ]|]);
      constructor .. ].
Qed.

(** ReadMemory stops on a size that does not print, before the relay is
    asked anything. *)
Lemma call_tool_size_raises arguments st address size e :
  lookup arguments "address" = Some address ->
  lookup arguments "size" = Some size ->
  py_str size = Raise e ->
  call_tool "ReadMemory" arguments st = (Raise e, st).
Proof.
  intros Ha Hs He. unfold call_tool. cbn [String.eqb Ascii.eqb Bool.eqb].
  rewrite bind_getitem, Ha. cbv beta.
  rewrite bind_getitem, Hs. cbv beta.
  unfold bind, lift. rewrite He. reflexivity.
Qed.

(** What a declared tool does, in all: it stops on a missing argument, it
    stops on a size that does not print, or it asks the relay once. *)
Lemma call_tool_outcomes t arguments st :
  In t list_tools ->
  (exists key, call_tool (name t) arguments st = (Raise (KeyError key), st)) \/
  (name t = "ReadMemory" /\
   exists size e,
     lookup arguments "size" = Some size /\
     py_str size = Raise e /\
     call_tool (name t) arguments st = (Raise e, st)) \/
  (exists cmd args' (k : value -> outcome (list TextContent)),
     In (name t, cmd) tool_commands /\
     call_tool (name t) arguments st
     = (result <- send_command cmd args' ;; lift (k result)) st).
Proof.
  intros Hin.
  destruct (required_present_or_missing arguments (required (inputSchema t)))
    as [Hreq|Hmiss].
  - assert (Hcases : size_prints t arguments \/
                     (name t = "ReadMemory" /\
                      exists size e,
                        lookup arguments "size" = Some size /\ py_str size = Raise e)).
    { destruct (string_dec (name t) "ReadMemory") as [Hn|Hn].
      - destruct (lookup arguments "size") as [size|] eqn:Hs.
        + destruct (py_str size) as [text|e] eqn:Hp.
          * left. intros _ size' Hs'. rewrite Hs in Hs'. injection Hs' as <-.
            exists text. exact Hp.
          * right. split; [exact Hn|]. exists size, e. split; [reflexivity|exact Hp].
        + left. intros _ size' Hs'. rewrite Hs in Hs'. discriminate Hs'.
      - left. intros Hn'. contradiction. }
    destruct Hcases as [Hsize|[Hn [size [e [Hs Hp]]]]].
    + right. right.
      destruct (call_tool_relays t arguments st Hin Hreq Hsize)
        as [cmd [args' [k [Hc [He _]]]]].
      exists cmd, args', k. split; assumption.
    + right. left. split; [exact Hn|]. exists size, e.
      split; [exact Hs|]. split; [exact Hp|].
      rewrite Hn.
      destruct (lookup arguments "address") as [address|] eqn:Ha.
      * apply (call_tool_size_raises arguments st address size e Ha Hs Hp).
      * exfalso. tool_cases Hin; try discriminate Hn.
        apply (Hreq "address"); [simpl; tauto|exact Ha].
  - left. destruct (call_tool_missing_key t arguments st Hin Hmiss) as [key [_ [_ He]]].
    exists key. exact He.
Qed.

End Dispatch_facts.

(** A tool called without one of the arguments its catalogue entry
    requires raises KeyError for the first required argument, in the
    order of the entry, that is missing; nothing has been asked of the
    relay: the client and the world are as before. *)
Theorem missing_required_argument :
  forall (RT : PyRuntime) (t : Tool) (arguments : dict) (st : State) (key : string),
    In t list_tools ->
    first_missing arguments (required (inputSchema t)) = Some key ->
    call_tool (name t) arguments st = (Raise (KeyError key), st).
Proof.
  intros RT t arguments st key Hin Hfirst.
  tool_cases Hin; unfold first_missing in Hfirst;
    cbn [required inputSchema no_parameters find] in Hfirst;
    rewrite ?contains_lookup in Hfirst; try discriminate Hfirst;
    unfold call_tool; cbn [name String.eqb Ascii.eqb Bool.eqb];
    repeat (rewrite bind_getitem;
            match goal with
            | |- context [match lookup arguments ?k with _ => _ end] =>
                destruct (lookup arguments k) as [?v|] eqn:?E;
                cbn [negb] in Hfirst;
                [cbv beta|inversion Hfirst; reflexivity]
            end);
    discriminate Hfirst.
Qed.

Lemma missing_required_argument_witness :
  let t := mkTool "RenameNode" "Rename a node/field in a class"
             (mkSchema
                [("class_id", mkProperty "string" "Class UUID or name");
                 ("node_index", mkProperty "integer" "Index of the node in the class");
                 ("name", mkProperty "string" "New name for the node")]
                ["class_id"; "node_index"; "name"]) in
  let arguments := [("class_id", VStr "Player")] in
  let st := Sample.connected [Done []; Done (Sample.line "{}")] in
  In t list_tools /\
  first_missing arguments (required (inputSchema t)) = Some "node_index" /\
  @call_tool Sample.runtime (name t) arguments st = (Raise (KeyError "node_index"), st).
Proof.
  intros t arguments st.
  assert (H1 : In t list_tools) by (unfold list_tools; simpl; tauto).
  assert (H2 : first_missing arguments (required (inputSchema t)) = Some "node_index")
    by reflexivity.
  split; [exact H1|]. split; [exact H2|].
  exact (missing_required_argument Sample.runtime t arguments st "node_index" H1 H2).
Defined.

(** Every declared tool other than IsConnected, called with the
    arguments its catalogue entry requires and, for ReadMemory, a size
    that str() prints, never raises: it relays one send_command under the
    command name of its branch and returns a single text item holding
    json.dumps(result, indent=2) of whatever send_command returned, a
    failure value included. *)
Theorem declared_tool_returns_one_text :
  forall (RT : PyRuntime) (t : Tool) (arguments : dict) (st : State),
    In t list_tools ->
    name t <> "IsConnected" ->
    (forall key, In key (required (inputSchema t)) -> lookup arguments key <> None) ->
    size_prints t arguments ->
    exists (cmd : string) (args' : option dict) (v : value) (st' : State),
      In (name t, cmd) tool_commands /\
      send_command cmd args' st = (Return v, st') /\
      call_tool (name t) arguments st
      = (Return [mkTextContent "text" (json_dumps_indent 2 v)], st').
Proof.
  intros RT t arguments st Hin Hname Hreq Hsize.
  destruct (call_tool_relays t arguments st Hin Hreq Hsize)
    as [cmd [args' [k [Hc [He [Hk _]]]]]].
  destruct (send_command_outcome RT cmd args' st) as [v [st' [_ [Hs _]]]].
  exists cmd, args', v, st'. split; [exact Hc|]. split; [exact Hs|].
  rewrite He. unfold bind. rewrite Hs. unfold lift. rewrite (Hk Hname). reflexivity.
Qed.

Lemma declared_tool_returns_one_text_witness :
  let t := mkTool "ReadMemory" "Read memory from the attached process"
             (mkSchema
                [("address", mkProperty "string"
                    "Memory address in hex (e.g., '0x7FF12345') or as module+offset (e.g., 'game.exe+0x1234')");
                 ("size", mkProperty "integer" "Number of bytes to read (max 65536)")]
                ["address"; "size"]) in
  let arguments := [("address", VStr "0x1000"); ("size", VInt 16)] in
  let st := Sample.connected [Fails "Broken pipe"] in
  In t list_tools /\
  name t <> "IsConnected" /\
  (forall key, In key (required (inputSchema t)) -> lookup arguments key <> None) /\
  @size_prints Sample.runtime t arguments /\
  exists (cmd : string) (args' : option dict) (v : value) (st' : State),
    In (name t, cmd) tool_commands /\
    @send_command Sample.runtime cmd args' st = (Return v, st') /\
    @call_tool Sample.runtime (name t) arguments st
    = (Return [mkTextContent "text" (@json_dumps_indent Sample.runtime 2 v)], st').
Proof.
  intros t arguments st.
  assert (H1 : In t list_tools) by (unfold list_tools; simpl; tauto).
  assert (H2 : name t <> "IsConnected") by discriminate.
  assert (H3 : forall key, In key (required (inputSchema t)) ->
                 lookup arguments key <> None).
  { intros key [<-|[<-|[]]]; discriminate. }
  assert (H4 : @size_prints Sample.runtime t arguments).
  { intros _ size Hs. injection Hs as <-. exists "16". vm_compute. reflexivity. }
  split; [exact H1|]. split; [exact H2|]. split; [exact H3|]. split; [exact H4|].
  exact (declared_tool_returns_one_text Sample.runtime t arguments st H1 H2 H3 H4).
Defined.

Lemma app_cons_not_nil_suffix {A} (l : list A) (x : A) (l' : list A) :
  l <> l ++ x :: l'.
Proof.
  intros H. apply (f_equal (@length A)) in H.
  rewrite length_app in H. simpl in H. lia.
Qed.

(** The catalogue and the dispatcher agree: a name of the catalogue never
    falls through to the last branch. Its call either stops on a missing
    argument with KeyError, or is ReadMemory stopping on a size that
    str() refuses, with the exception str() raised and nothing asked of
    the relay, or asks the relay, which records at least one call. *)
Theorem declared_tool_is_dispatched :
  forall (RT : PyRuntime) (name : string) (arguments : dict) (st : State),
    In name tool_names ->
    ((exists key, call_tool name arguments st = (Raise (KeyError key), st)) \/
     (name = "ReadMemory" /\
      exists size e,
        lookup arguments "size" = Some size /\
        py_str size = Raise e /\
        call_tool name arguments st = (Raise e, st)) \/
     (exists ev evs,
        trace (world (snd (call_tool name arguments st)))
        = trace (world st) ++ ev :: evs)) /\
    call_tool name arguments st
    <> (Return [mkTextContent "text" ("Unknown tool: " ++ name)], st).
Proof.
  intros RT name arguments st Hin.
  unfold tool_names in Hin. apply in_map_iff in Hin.
  destruct Hin as [t [<- Hin]].
  destruct (call_tool_outcomes t arguments st Hin)
    as [[key He]|[[Hn [size [e [Hs [Hp He]]]]]|[cmd [args' [k [_ He]]]]]].
  - split.
    + left. exists key. exact He.
    + rewrite He. discriminate.
  - split.
    + right. left. split; [exact Hn|]. exists size, e. repeat split; assumption.
    + rewrite He. discriminate.
  - destruct (send_command_records_a_call cmd args' st) as [ev [evs Ht]].
    assert (Htr : trace (world (snd (call_tool (name t) arguments st)))
                  = trace (world st) ++ ev :: evs).
    { rewrite He, bind_lift_snd. exact Ht. }
    split.
    + right. right. exists ev, evs. exact Htr.
    + intros Heq. rewrite Heq in Htr. simpl in Htr.
      exact (app_cons_not_nil_suffix _ _ _ Htr).
Qed.

Lemma declared_tool_is_dispatched_witness :
  let arguments := [("formula", VStr "game.exe+0x1234")] in
  let st := Sample.fresh [Fails "Too many open files"] in
  In "ParseAddress" tool_names /\
  (((exists key,
       @call_tool Sample.runtime "ParseAddress" arguments st = (Raise (KeyError key), st)) \/
    ("ParseAddress" = "ReadMemory" /\
     exists size e,
       lookup arguments "size" = Some size /\
       @py_str Sample.runtime size = Raise e /\
       @call_tool Sample.runtime "ParseAddress" arguments st = (Raise e, st)) \/
    (exists ev evs,
       trace (world (snd (@call_tool Sample.runtime "ParseAddress" arguments st)))
       = trace (world st) ++ ev :: evs)) /\
   @call_tool Sample.runtime "ParseAddress" arguments st
   <> (Return [mkTextContent "text" ("Unknown tool: " ++ "ParseAddress")], st)).
Proof.
  intros arguments st.
  assert (H : In "ParseAddress" tool_names)
    by (unfold tool_names, list_tools; simpl; tauto).
  split; [exact H|].
  exact (declared_tool_is_dispatched Sample.runtime "ParseAddress" arguments st H).
Defined.

(** One tool call is one attempt: whatever the name and the arguments,
    call_tool creates at most one socket, tries at most one connection,
    writes at most one request and calls close at most once. *)
Theorem call_tool_single_attempt :
  forall (RT : PyRuntime) (name : string) (arguments : dict) (st : State),
  exists evs : list event,
    trace (world (snd (call_tool name arguments st))) = trace (world st) ++ evs /\
    single_attempt evs.
Proof.
  intros RT name arguments st.
  assert (Hnone : exists evs : list event,
             trace (world st) = trace (world st) ++ evs /\ single_attempt evs).
  { exists []. split; [symmetry; apply app_nil_r|].
    unfold single_attempt. cbv. repeat split; lia. }
  destruct (in_dec string_dec name tool_names) as [Hin|Hout].
  - unfold tool_names in Hin. apply in_map_iff in Hin.
    destruct Hin as [t [<- Hin]].
    destruct (call_tool_outcomes t arguments st Hin)
      as [[key He]|[[_ [size [e [_ [_ He]]]]]|[cmd [args' [k [_ He]]]]]].
    + rewrite He. exact Hnone.
    + rewrite He. exact Hnone.
    + rewrite He, bind_lift_snd.
      destruct (send_command_outcome RT cmd args' st)
        as [v [st' [evs [H [Ht Hcount]]]]].
      exists evs. rewrite H. split; [exact Ht|exact Hcount].
  - rewrite (call_tool_fallback name arguments st Hout). exact Hnone.
Qed.

(** A tool reads only the arguments its catalogue entry declares: two
    argument mappings that agree on the declared parameters give the same
    call, so an undeclared argument never reaches the relay. *)
Theorem undeclared_arguments_ignored :
  forall (RT : PyRuntime) (t : Tool) (arguments1 arguments2 : dict) (st : State),
    In t list_tools ->
    (forall key, In key (declared_keys t) -> lookup arguments1 key = lookup arguments2 key) ->
    call_tool (name t) arguments1 st = call_tool (name t) arguments2 st.
Proof.
  intros RT t arguments1 arguments2 st Hin Hsame.
  tool_cases Hin; unfold declared_keys in Hsame; simpl in Hsame;
    unfold call_tool; cbn [name String.eqb Ascii.eqb Bool.eqb];
    rewrite ?contains_lookup; unfold getitem;
    repeat match goal with
           | |- context [lookup arguments1 ?k] =>
               rewrite (Hsame k) by (simpl; tauto)
           end;
    reflexivity.
Qed.

Lemma undeclared_arguments_ignored_witness :
  let t := mkTool "GetNodes" "Get all nodes/fields of a specific class"
             (mkSchema [("class_id", mkProperty "string" "Class UUID or name")]
                ["class_id"]) in
  let arguments1 := [("class_id", VStr "Player"); ("verbose", VBool true)] in
  let arguments2 := [("class_id", VStr "Player")] in
  let st := Sample.connected [Done []; Done (Sample.line "{}")] in
  In t list_tools /\
  (forall key, In key (declared_keys t) ->
     lookup arguments1 key = lookup arguments2 key) /\
  @call_tool Sample.runtime (name t) arguments1 st
  = @call_tool Sample.runtime (name t) arguments2 st.
Proof.
  intros t arguments1 arguments2 st.
  assert (H1 : In t list_tools) by (unfold list_tools; simpl; tauto).
  assert (H2 : forall key, In key (declared_keys t) ->
                 lookup arguments1 key = lookup arguments2 key).
  { intros key [<-|[]]. reflexivity. }
  split; [exact H1|]. split; [exact H2|].
  exact (undeclared_arguments_ignored Sample.runtime t arguments1 arguments2 st H1 H2).
Defined.

(** AddNode relays add_node with the class and the type, in that order,
    followed by the name only when the arguments carry one. *)
Theorem add_node_args :
  forall (RT : PyRuntime) (arguments : dict) (st : State) (class_id type_ : value),
    lookup arguments "class_id" = Some class_id ->
    lookup arguments "type" = Some type_ ->
    call_tool "AddNode" arguments st
    = (result <- send_command "add_node"
                   (Some (match lookup arguments "name" with
                          | None => [("class_id", class_id); ("type", type_)]
                          | Some n => [("class_id", class_id); ("type", type_); ("name", n)]
                          end)) ;;
       ret (dumped result)) st.
Proof.
  intros RT arguments st class_id type_ Hc Ht.
  unfold call_tool. cbn [String.eqb Ascii.eqb Bool.eqb].
  rewrite bind_getitem, Hc. cbv beta.
  rewrite bind_getitem, Ht. cbv beta.
  rewrite optional_argument, bind_ret.
  destruct (lookup arguments "name"); reflexivity.
Qed.

Lemma add_node_args_witness :
  let arguments := [("name", VStr "health"); ("class_id", VStr "Player");
                    ("type", VStr "int32")] in
  let st := Sample.connected [] in
  lookup arguments "class_id" = Some (VStr "Player") /\
  lookup arguments "type" = Some (VStr "int32") /\
  @call_tool Sample.runtime "AddNode" arguments st
  = (result <- @send_command Sample.runtime "add_node"
                 (Some (match lookup arguments "name" with
                        | None => [("class_id", VStr "Player"); ("type", VStr "int32")]
                        | Some n => [("class_id", VStr "Player"); ("type", VStr "int32");
                                     ("name", n)]
                        end)) ;;
     ret (@dumped Sample.runtime result)) st.
Proof.
  intros arguments st.
  assert (H1 : lookup arguments "class_id" = Some (VStr "Player")) by reflexivity.
  assert (H2 : lookup arguments "type" = Some (VStr "int32")) by reflexivity.
  split; [exact H1|]. split; [exact H2|].
  exact (add_node_args Sample.runtime arguments st (VStr "Player") (VStr "int32") H1 H2).
Defined.

(** ** What IsConnected says of local failures *)

(** When there is no connection and connect() fails, IsConnected answers
    "Not connected: Failed to connect to ReClass.NET plugin". *)
Theorem is_connected_reports_connect_failure :
  forall (RT : PyRuntime) (arguments : dict) (st st1 : State),
    sock (self st) = None ->
    connect st = (Return false, st1) ->
    call_tool "IsConnected" arguments st
    = (Return [mkTextContent "text"
                 "Not connected: Failed to connect to ReClass.NET plugin"], st1).
Proof.
  intros RT arguments st st1 Hs Hc.
  unfold call_tool. cbn [String.eqb Ascii.eqb Bool.eqb].
  assert (Hping : send_command "ping" None st
                  = (Return (failure "Failed to connect to ReClass.NET plugin"), st1)).
  { rewrite (send_command_absent _ _ _ Hs), (bind_return _ _ _ _ _ Hc). reflexivity. }
  rewrite (bind_return _ _ _ _ _ Hping). reflexivity.
Qed.

Lemma is_connected_reports_connect_failure_witness :
  let st := Sample.fresh [Done []; Fails "Connection refused"] in
  let st1 := snd (connect st) in
  sock (self st) = None /\
  connect st = (Return false, st1) /\
  @call_tool Sample.runtime "IsConnected" [] st
  = (Return [mkTextContent "text"
               "Not connected: Failed to connect to ReClass.NET plugin"], st1).
Proof.
  intros st st1.
  assert (H1 : sock (self st) = None) by reflexivity.
  assert (H2 : connect st = (Return false, st1)) by (vm_compute; reflexivity).
  split; [exact H1|]. split; [exact H2|].
  exact (is_connected_reports_connect_failure Sample.runtime [] st st1 H1 H2).
Defined.

(** When the exchange of the ping raises, IsConnected answers
    "Not connected: " followed by the text of the exception, and the
    connection is absent afterwards. *)
Theorem is_connected_reports_exchange_failure :
  forall (RT : PyRuntime) (arguments : dict) (st st1 st2 : State) (e : exn),
    exchange_starts st st1 ->
    send_command_try (request_of "ping" None) st1 = (Raise e, st2) ->
    exists st3 : State,
      call_tool "IsConnected" arguments st
      = (Return [mkTextContent "text" ("Not connected: " ++ exn_str e)], st3) /\
      sock (self st3) = None.
Proof.
  intros RT arguments st st1 st2 e Hstart Htry.
  destruct (send_command_except_cases e st2) as [st3 [Hx [Hs _]]].
  assert (Hping : send_command "ping" None st = (Return (failure (exn_str e)), st3)).
  { rewrite (send_command_exchange _ _ _ _ Hstart).
    rewrite (try_except_raise _ _ _ _ _ Htry). exact Hx. }
  exists st3. split; [|exact Hs].
  unfold call_tool. cbn [String.eqb Ascii.eqb Bool.eqb].
  rewrite (bind_return _ _ _ _ _ Hping). reflexivity.
Qed.

Lemma is_connected_reports_exchange_failure_witness :
  let st := Sample.connected [Done []; Fails "Connection reset by peer"] in
  let e := OSError "Connection reset by peer" in
  let st2 := snd (@send_command_try Sample.runtime (request_of "ping" None) st) in
  exchange_starts st st /\
  @send_command_try Sample.runtime (request_of "ping" None) st = (Raise e, st2) /\
  exists st3 : State,
    @call_tool Sample.runtime "IsConnected" [] st
    = (Return [mkTextContent "text" ("Not connected: " ++ exn_str e)], st3) /\
    sock (self st3) = None.
Proof.
  intros st e st2.
  assert (H1 : exchange_starts st st) by reflexivity.
  assert (H2 : @send_command_try Sample.runtime (request_of "ping" None) st
               = (Raise e, st2)) by (vm_compute; reflexivity).
  split; [exact H1|]. split; [exact H2|].
  exact (is_connected_reports_exchange_failure Sample.runtime [] st st st2 e H1 H2).
Defined.

(** ** The size of ReadMemory *)

(** str() of the size is outside every [try]: an integer size of
    magnitude 10^4300 or more, one of more than 4300 digits, makes
    call_tool raise the ValueError of str(), with nothing asked of the
    relay and the client as it was; every smaller integer size is sent
    as its decimal string. *)
Theorem read_memory_size_limit :
  forall (RT : PyRuntime) (arguments : dict) (st : State) (address : value) (size : Z),
    lookup arguments "address" = Some address ->
    lookup arguments "size" = Some (VInt size) ->
    ((10 ^ 4300 <= Z.abs size)%Z ->
     call_tool "ReadMemory" arguments st
     = (Raise (ValueError
                 "Exceeds the limit (4300 digits) for integer string conversion; use sys.set_int_max_str_digits() to increase the limit"),
        st)) /\
    ((Z.abs size < 10 ^ 4300)%Z ->
     call_tool "ReadMemory" arguments st
     = (result <- send_command "read_memory"
                    (Some [("address", address); ("size", VStr (str_of_int size))]) ;;
        ret (dumped result)) st).
Proof.
  intros RT arguments st address size Ha Hs.
  unfold call_tool. cbn [String.eqb Ascii.eqb Bool.eqb].
  rewrite bind_getitem, Ha. cbv beta.
  rewrite bind_getitem, Hs. cbv beta.
  cbn [py_str]. unfold int_str, int_str_limit, int_max_str_digits.
  split; intros Hz.
  - apply Z.leb_le in Hz. rewrite Hz. reflexivity.
  - apply Z.leb_gt in Hz. rewrite Hz. rewrite bind_lift_return. reflexivity.
Qed.

Lemma read_memory_size_limit_witness :
  let huge := [("address", VStr "0x1000"); ("size", VInt (10 ^ 4300))] in
  let small := [("address", VStr "0x1000"); ("size", VInt 65536)] in
  let st := Sample.connected [] in
  (lookup huge "address" = Some (VStr "0x1000") /\
   lookup huge "size" = Some (VInt (10 ^ 4300)) /\
   (10 ^ 4300 <= Z.abs (10 ^ 4300))%Z /\
   @call_tool Sample.runtime "ReadMemory" huge st
   = (Raise (ValueError
               "Exceeds the limit (4300 digits) for integer string conversion; use sys.set_int_max_str_digits() to increase the limit"),
      st)) /\
  (lookup small "address" = Some (VStr "0x1000") /\
   lookup small "size" = Some (VInt 65536) /\
   (Z.abs 65536 < 10 ^ 4300)%Z /\
   @call_tool Sample.runtime "ReadMemory" small st
   = (result <- @send_command Sample.runtime "read_memory"
                  (Some [("address", VStr "0x1000"); ("size", VStr (str_of_int 65536))]) ;;
      ret (@dumped Sample.runtime result)) st).
Proof.
  intros huge small st.
  assert (H1 : lookup huge "address" = Some (VStr "0x1000")) by reflexivity.
  assert (H2 : lookup huge "size" = Some (VInt (10 ^ 4300))) by reflexivity.
  assert (H3 : (10 ^ 4300 <= Z.abs (10 ^ 4300))%Z).
  { rewrite Z.abs_eq; [apply Z.le_refl|apply Z.pow_nonneg; discriminate]. }
  assert (H4 : lookup small "address" = Some (VStr "0x1000")) by reflexivity.
  assert (H5 : lookup small "size" = Some (VInt 65536)) by reflexivity.
  assert (H6 : (Z.abs 65536 < 10 ^ 4300)%Z).
  { apply Z.lt_le_trans with (10 ^ 5)%Z; [reflexivity|].
    apply Z.pow_le_mono_r; [reflexivity|discriminate]. }
  split.
  - split; [exact H1|]. split; [exact H2|]. split; [exact H3|].
    exact (proj1 (read_memory_size_limit Sample.runtime huge st (VStr "0x1000")
                    (10 ^ 4300)%Z H1 H2) H3).
  - split; [exact H4|]. split; [exact H5|]. split; [exact H6|].
    exact (proj2 (read_memory_size_limit Sample.runtime small st (VStr "0x1000")
                    65536%Z H4 H5) H6).
Defined.

(** ** The ordinary exchange, and what a failed one leaves *)




(** A failed exchange closes the socket it used: after the exception,
    the one further call is close on that socket, whose own failure is
    ignored, and the client holds no socket. *)
Theorem failed_exchange_closes_socket :
  forall (RT : PyRuntime) (command : string) (args : option dict)
         (st st1 st2 : State) (s : socket) (e : exn),
    exchange_starts st st1 ->
    sock (self st1) = Some s ->
    send_command_try (request_of command args) st1 = (Raise e, st2) ->
    exists (st3 : State) (a : answer),
      send_command command args st
      = (Return (VDict [("success", VBool false); ("error", VStr (exn_str e))]), st3) /\
      trace (world st3) = trace (world st2) ++ [Ev (Close s) a] /\
      sock (self st3) = None.
Proof.
  intros RT command args st st1 st2 s e Hstart Hs Htry.
  rewrite (send_command_exchange _ _ _ _ Hstart).
  rewrite (try_except_raise _ _ _ _ _ Htry).
  pose proof (send_command_try_self (request_of command args) st1) as Hself.
  rewrite Htry in Hself. simpl in Hself.
  unfold send_command_except, bind. rewrite disconnect_cases. cbv zeta.
  rewrite Hself, Hs.
  do 2 eexists. split; [reflexivity|]. split; [|reflexivity].
  cbn [world]. apply (ask_trace (Close s)).
Qed.

Lemma failed_exchange_closes_socket_witness :
  let st := Sample.connected [Done []; Done (Sample.line "pong"); Fails "Bad file descriptor"] in
  let e := JSONDecodeError "Expecting value: line 1 column 1 (char 0)" in
  let st2 := snd (@send_command_try Sample.runtime (request_of "ping" None) st) in
  exchange_starts st st /\
  sock (self st) = Some 0%nat /\
  @send_command_try Sample.runtime (request_of "ping" None) st = (Raise e, st2) /\
  exists (st3 : State) (a : answer),
    @send_command Sample.runtime "ping" None st
    = (Return (VDict [("success", VBool false); ("error", VStr (exn_str e))]), st3) /\
    trace (world st3) = trace (world st2) ++ [Ev (Close 0%nat) a] /\
    sock (self st3) = None.
Proof.
  intros st e st2.
  assert (H1 : exchange_starts st st) by reflexivity.
  assert (H2 : sock (self st) = Some 0%nat) by reflexivity.
  assert (H3 : @send_command_try Sample.runtime (request_of "ping" None) st
               = (Raise e, st2)) by (vm_compute; reflexivity).
  repeat (split; [assumption|]).
  exact (failed_exchange_closes_socket Sample.runtime "ping" None st st st2 0%nat e
           H1 H2 H3).
Defined.

(** disconnect on a client that holds a socket calls close on that
    socket exactly once and makes no other call; the host and the port of
    the client stay as they were. *)
Theorem disconnect_closes_held_socket :
  forall (st : State) (s : socket),
    sock (self st) = Some s ->
    exists (st' : State) (a : answer),
      disconnect st = (Return tt, st') /\
      trace (world st') = trace (world st) ++ [Ev (Close s) a] /\
      sock (self st') = None /\
      host (self st') = host (self st) /\
      port (self st') = port (self st).
Proof.
  intros st s Hs. rewrite disconnect_cases. cbv zeta. rewrite Hs.
  do 2 eexists. split; [reflexivity|].
  split; [cbn [world]; apply (ask_trace (Close s))|]. repeat split.
Qed.

Lemma disconnect_closes_held_socket_witness :
  let st := Sample.connected [Fails "Bad file descriptor"] in
  sock (self st) = Some 0%nat /\
  exists (st' : State) (a : answer),
    disconnect st = (Return tt, st') /\
    trace (world st') = trace (world st) ++ [Ev (Close 0%nat) a] /\
    sock (self st') = None /\
    host (self st') = host (self st) /\
    port (self st') = port (self st).
Proof.
  intros st.
  assert (H : sock (self st) = Some 0%nat) by reflexivity.
  split; [exact H|].
  exact (disconnect_closes_held_socket st 0%nat H).
Defined.

(** ** What reaches the args mapping *)

Lemma string_valued_in (d : dict) v :
  string_valued d = true -> In v (map snd d) -> is_str v = true.
Proof.
  unfold string_valued. intros Hd Hin. apply in_map_iff in Hin.
  destruct Hin as [[k x] [<- Hin]].
  rewrite forallb_forall in Hd. apply (Hd _ Hin).
Qed.

Ltac known_lookups arguments Hreq keys :=
  match keys with
  | ?k :: ?rest =>
      destruct (lookup arguments k) as [?v|] eqn:?E;
      [|try (exfalso; apply (Hreq k); [simpl; tauto|assumption])];
      known_lookups arguments Hreq rest
  | _ => idtac
  end.

Section Dispatch_uniform.
Context `{RT : PyRuntime}.

(** The same for every state at once: the command and the args depend on
    the tool and the arguments only. *)
Lemma call_tool_relays_uniform t arguments :
  In t list_tools ->
  name t <> "IsConnected" ->
  (forall key, In key (required (inputSchema t)) -> lookup arguments key <> None) ->
  size_prints t arguments ->
  exists cmd args',
    In (name t, cmd) tool_commands /\
    (forall st,
       call_tool (name t) arguments st
       = (result <- send_command cmd args' ;; ret (dumped result)) st) /\
    Forall (fun kv => is_str (snd kv) = true \/ In (snd kv) (map snd arguments))
      (or_empty args').
Proof.
  intros Hin Hname Hreq Hsize.
  tool_cases Hin; [exfalso; apply Hname; reflexivity|..];
    unfold size_prints in Hsize; cbn [name] in Hsize;
    match type of Hreq with
    | context [inputSchema ?T] =>
        let keys := eval cbv in (declared_keys T) in
        known_lookups arguments Hreq keys
    end;
    try (destruct (Hsize eq_refl _ eq_refl) as [text Ht]);
    cbn [name];
    match goal with
    | |- exists cmd args', In (?n, _) _ /\ _ =>
        eassert (Heq : forall st,
                   call_tool n arguments st
                   = (result <- send_command _ _ ;; ret (dumped result)) st)
          by (intros st; unfold call_tool; cbn [String.eqb Ascii.eqb Bool.eqb];
              rewrite ?contains_lookup; unfold getitem;
              repeat match goal with
                     | H : lookup arguments ?k = _ |- _ => rewrite H
                     end;
              repeat (rewrite bind_lift_return; cbv beta);
              try match goal with
                  | H : py_str _ = Return _ |- _ => rewrite H
                  end;
              reflexivity)
    end;
    match type of Heq with
    | forall st, _ = bind (send_command ?cmd ?args') _ st => exists cmd, args'
    end;
    (split; [simpl; tauto|]); (split; [exact Heq|]);
    cbn [or_empty];
    repeat (constructor;
            [first [ left; reflexivity
                   | right; cbn [snd]; eapply lookup_value_in; eassumption ]|]);
    constructor.
Qed.
End Dispatch_uniform.

(** The args of the relayed command hold nothing but what the caller
    gave: a declared tool other than IsConnected, given its required
    arguments and, for ReadMemory, a size that str() prints, is in every
    state one send_command whose args depend on the arguments only, and
    every value of those args is a value of the arguments or a string. So
    when all the arguments are strings, every value sent is a string. *)
Theorem relayed_args_come_from_arguments :
  forall (RT : PyRuntime) (t : Tool) (arguments : dict),
    In t list_tools ->
    name t <> "IsConnected" ->
    (forall key, In key (required (inputSchema t)) -> lookup arguments key <> None) ->
    size_prints t arguments ->
    exists (cmd : string) (args' : option dict),
      In (name t, cmd) tool_commands /\
      (forall st : State,
         call_tool (name t) arguments st
         = (result <- send_command cmd args' ;; ret (dumped result)) st) /\
      Forall (fun kv => is_str (snd kv) = true \/ In (snd kv) (map snd arguments))
        (or_empty args') /\
      (string_valued arguments = true -> string_valued (or_empty args') = true).
Proof.
  intros RT t arguments Hin Hname Hreq Hsize.
  destruct (call_tool_relays_uniform t arguments Hin Hname Hreq Hsize)
    as [cmd [args' [Hc [He Hf]]]].
  exists cmd, args'. split; [exact Hc|]. split; [exact He|].
  split; [exact Hf|].
  intros Hstr. unfold string_valued. apply forallb_forall. intros kv Hkv.
  rewrite Forall_forall in Hf. destruct (Hf kv Hkv) as [H|H]; [exact H|].
  apply (string_valued_in arguments); assumption.
Qed.

Lemma relayed_args_come_from_arguments_witness :
  let t := mkTool "ReadMemory" "Read memory from the attached process"
             (mkSchema
                [("address", mkProperty "string"
                    "Memory address in hex (e.g., '0x7FF12345') or as module+offset (e.g., 'game.exe+0x1234')");
                 ("size", mkProperty "integer" "Number of bytes to read (max 65536)")]
                ["address"; "size"]) in
  let arguments := [("address", VStr "0x7FF12345"); ("size", VStr "64")] in
  In t list_tools /\
  name t <> "IsConnected" /\
  (forall key, In key (required (inputSchema t)) -> lookup arguments key <> None) /\
  @size_prints Sample.runtime t arguments /\
  exists (cmd : string) (args' : option dict),
    In (name t, cmd) tool_commands /\
    (forall st : State,
       @call_tool Sample.runtime (name t) arguments st
       = (result <- @send_command Sample.runtime cmd args' ;;
          ret (@dumped Sample.runtime result)) st) /\
    Forall (fun kv => is_str (snd kv) = true \/ In (snd kv) (map snd arguments))
      (or_empty args') /\
    (string_valued arguments = true -> string_valued (or_empty args') = true).
Proof.
  intros t arguments.
  assert (H1 : In t list_tools) by (unfold list_tools; simpl; tauto).
  assert (H0 : name t <> "IsConnected") by discriminate.
  assert (H2 : forall key, In key (required (inputSchema t)) ->
                 lookup arguments key <> None).
  { intros key [<-|[<-|[]]]; discriminate. }
  assert (H3 : @size_prints Sample.runtime t arguments).
  { intros _ size Hs. injection Hs as <-. exists "64". reflexivity. }
  split; [exact H1|]. split; [exact H0|]. split; [exact H2|]. split; [exact H3|].
  exact (relayed_args_come_from_arguments Sample.runtime t arguments H1 H0 H2 H3).
Defined.

(** ** Two commands in a row *)


